(** * sec405-ipinsights.ipynb: the IP Insights workshop notebook

    A shallow embedding of the code cells of
    [detection-ml-wksp/sec405-ipinsights.ipynb].

    The notebook is a straight-line script over one shared interpreter: every
    code cell reads and writes the interpreter's global variables, prints to
    the cell output, and calls the AWS SDKs (boto3, sagemaker, pandas over
    S3).  The embedding keeps these three things explicit:

    - the interpreter state [NB]: the global variables, the text printed so
      far, the values displayed as cell results, and the trace of calls made
      to the remote interfaces;
    - the remote side [World]: one oracle per SDK call, each of which either
      returns a value or raises, and one for each piece of library behaviour
      the notebook depends on but does not determine (what the SDK writes to
      the cell output while it waits, how pandas types a cell that is not
      plain text);
    - the cells, written in a small state-and-exception monad [M], in the
      order and with the constants of the notebook.

    Cells are numbered by their index in the notebook's cell list (markdown
    cells included), so the code cells are 1, 3, 5, 7, 8, 9, 11, 12, 14, 16
    and 18. *)

From Stdlib Require Import Ascii String ZArith QArith.
From stdpp Require Import base strings gmap list.

Set Warnings "-register-all".

Local Open Scope string_scope.
Local Open Scope Z_scope.
Local Open Scope list_scope.

(** ** Python values the notebook handles *)

(** The exceptions that can surface in a cell. *)
Inductive Exn : Type :=
| ParamValidationError                (* botocore.exceptions.ParamValidationError *)
| ClientError (code : string)         (* botocore.exceptions.ClientError, e.response['Error']['Code'] *)
| ValueError (msg : string)
| NameError (name : string)
| EmptyDataError                      (* pandas.errors.EmptyDataError *)
| OtherError (descr : string).        (* any other exception class *)

(** What a call does: it returns or it raises. *)
Inductive result (A : Type) : Type :=
| Returns (a : A)
| Raises (e : Exn).
Arguments Returns {A} & a.
Arguments Raises {A} e.

(** One record of a tuples file: [<principal ID, IP address>]. *)
Record TupleRecord : Type := mkTuple {
  principalId : string;
  ipAddress : string
}.

(** One line of a tuples file: a blank line, or a record of two fields. *)
Inductive Line : Type :=
| BlankLine
| RecordLine (record : TupleRecord).

Coercion RecordLine : TupleRecord >-> Line.

(** A list written out where lines are expected is a list of lines. *)
#[local] Arguments cons {A} & _ _.

(** A CSV object in S3, as its sequence of lines. *)
Definition csv_object : Type := list Line.

(** [pandas.DataFrame] as far as the notebook uses it: the column labels and
    [.values], the rows in file order, every cell as the text the CSV writer
    prints for it ([str] of the cell's value). *)
Record DataFrame : Type := mkDataFrame {
  columns : string * string;
  values : list TupleRecord
}.

(** JSON documents (the body of an inference response). *)
Inductive json : Type :=
| JNull
| JBool (b : bool)
| JNumber (x : Q)
| JString (s : string)
| JArray (items : list json)
| JObject (members : list (string * json)).

(** One entry of the response's ["predictions"] list. *)
Record ScoreResult : Type := mkScore { dot_product : Q }.

(** [sagemaker.session.s3_input(s3_data, distribution=..., content_type=...)]. *)
Record s3_input : Type := mk_s3_input {
  s3_data : string;
  distribution : string;
  input_content_type : string
}.

(** The training job as the SDK submits it for an [Estimator]. *)
Record TrainingRequest : Type := mkTrainingRequest {
  req_image : string;
  req_role : string;
  req_instance_count : Z;
  req_instance_type : string;
  req_output_path : string;
  req_input_config : list (string * s3_input);
  req_hyperparameters : gmap string string
}.

(** Terminal states of a training job. *)
Inductive JobStatus : Type := Completed | Failed | Stopped.

(** [Estimator.deploy(initial_instance_count, instance_type)] for the model of
    a training job. *)
Record DeployRequest : Type := mkDeployRequest {
  dep_training_job : string;
  dep_initial_instance_count : Z;
  dep_instance_type : string
}.

(** The body handed to [invoke_endpoint]: the serializer's text, or the
    caller's array untouched when the predictor has no serializer. *)
Inductive Body : Type :=
| BodyText (text : string)
| BodyArray (rows : list TupleRecord).

Record InvokeRequest : Type := mkInvokeRequest {
  EndpointName : string;
  RequestBody : Body;
  ContentType : option string;
  Accept : option string
}.

(** The response stream of the endpoint: a JSON document or other text. *)
Inductive ResponseBody : Type :=
| JsonText (doc : json)
| OtherText (text : string).

(** What [predictor.predict] hands back. *)
Inductive Prediction : Type :=
| Deserialized (v : json)
| RawBody (b : ResponseBody).

Inductive Serializer : Type := csv_serializer.
Inductive Deserializer : Type := json_deserializer.

(** [sagemaker.estimator.Estimator]: constructor arguments, the mutable
    hyperparameter dict and the job started by the last [fit]. *)
Record Estimator : Type := mkEstimator {
  image_name : string;
  role : string;
  train_instance_count : Z;
  train_instance_type : string;
  output_path : string;
  hyperparam_dict : gmap string string;
  latest_training_job : option string
}.

(** [sagemaker.predictor.RealTimePredictor]: the endpoint name and the four
    mutable codec attributes, all [None] when [deploy] creates it. *)
Record Predictor : Type := mkPredictor {
  endpoint : string;
  content_type : option string;
  serializer : option Serializer;
  accept : option string;
  deserializer : option Deserializer
}.

(** ** The remote side *)

(** Calls that leave the notebook process. *)
Inductive Event : Type :=
| EvGetExecutionRole
| EvHeadBucket (Bucket : string)
| EvCreateTrainingJob (req : TrainingRequest)
| EvWaitTrainingJob (job : string)
| EvCreateEndpoint (req : DeployRequest)
| EvGetObject (uri : string)
| EvInvokeEndpoint (req : InvokeRequest).

(** The services and SDK internals the notebook relies on but does not
    contain.  Each field answers one call. *)
Record World : Type := mkWorld {
  (* sagemaker.get_execution_role() *)
  get_execution_role : result string;
  (* boto3.Session().client('s3').head_bucket(Bucket=...) *)
  head_bucket : string -> result unit;
  (* boto3.Session().region_name *)
  region_name : string;
  (* sagemaker.amazon.amazon_estimator.get_image_uri(region, algorithm) *)
  get_image_uri : string -> string -> string;
  (* the CreateTrainingJob call inside Estimator.fit: the new job's name *)
  create_training_job : TrainingRequest -> result string;
  (* the terminal state the blocking wait of Estimator.fit observes *)
  wait_training_job : string -> JobStatus;
  (* the SDK's check of that state once the wait is over *)
  check_job_status : string -> JobStatus -> result unit;
  (* model + endpoint creation inside Estimator.deploy, waited for: the
     endpoint's name *)
  create_endpoint : DeployRequest -> result string;
  (* the S3 read behind pandas.read_csv('s3://...') *)
  get_object : string -> result csv_object;
  (* sagemaker_runtime_client.invoke_endpoint with the request as keywords *)
  invoke_endpoint : InvokeRequest -> result ResponseBody;
  (* what Estimator.fit writes to the cell output while it waits for the job:
     progress marks and the training log *)
  training_log : string -> list string;
  (* what Estimator.deploy writes to the cell output while it waits for the
     endpoint: the progress line *)
  deploy_progress : DeployRequest -> list string;
  (* pandas' type inference as the CSV writer sees it: for the data records
     of a file and a row index, the text written for the cells of that row
     once pandas has typed them (integers, floats, missing values, ...) *)
  printed_row : list TupleRecord -> nat -> TupleRecord
}.

(** ** The interpreter *)

(** The notebook's global variables; [None] is an unbound name. *)
Record Globals : Type := mkGlobals {
  bucket : option string;
  prefix : option string;
  execution_role : option string;
  image : option string;
  train_key : option string;
  s3_train_data : option string;
  input_data : option (list (string * s3_input));
  ip_insights : option Estimator;
  predictor : option Predictor;
  s3_infer_data : option string;
  inference_data : option DataFrame;
  infer_key : option string
}.

Record NB : Type := mkNB {
  globals : Globals;
  stdout : list string;                 (* printed lines, oldest first *)
  displayed : list Prediction;          (* cell results, oldest first *)
  trace : list Event                    (* remote calls, oldest first *)
}.

Definition no_globals : Globals :=
  mkGlobals None None None None None None None None None None None None.

Definition fresh : NB := mkNB no_globals [] [] [].

(** State and exceptions. *)
Definition M (A : Type) : Type := NB -> result A * NB.

Definition ret {A} (a : A) : M A := fun s => (Returns a, s).

Definition raise {A} (e : Exn) : M A := fun s => (Raises e, s).

(** A local computation that returns or raises, without touching the state. *)
Definition lift {A} (r : result A) : M A := fun s => (r, s).

Definition bind {A B} (m : M A) (k : A -> M B) : M B :=
  fun s =>
    match m s with
    | (Returns a, s') => k a s'
    | (Raises e, s') => (Raises e, s')
    end.

#[global] Instance M_ret : MRet M := @ret.
#[global] Instance M_bind : MBind M := fun A B k m => bind m k.

(** [try: body / except ...: handler / else: orelse]: the handler sees the
    exception and decides whether to absorb or re-raise it; [orelse] runs
    only when [body] raised nothing and is itself outside the [try]. *)
Definition try_except_else {A B} (body : M A) (handler : Exn -> M B)
    (orelse : A -> M B) : M B :=
  fun s =>
    match body s with
    | (Returns a, s') => orelse a s'
    | (Raises e, s') => handler e s'
    end.

Definition print (line : string) : M unit :=
  fun s => (Returns tt, mkNB (globals s) (stdout s ++ [line]) (displayed s) (trace s)).

(** Output written by a library call, line by line. *)
Definition output_lines (lines : list string) : M unit :=
  fun s => (Returns tt, mkNB (globals s) (stdout s ++ lines) (displayed s) (trace s)).

Definition display (v : Prediction) : M unit :=
  fun s => (Returns tt, mkNB (globals s) (stdout s) (displayed s ++ [v]) (trace s)).

(** A remote call is logged, then answered by the world. *)
Definition call {A} (ev : Event) (answer : result A) : M A :=
  fun s => (answer, mkNB (globals s) (stdout s) (displayed s) (trace s ++ [ev])).

Definition read {A} (name : string) (var : Globals -> option A) : M A :=
  fun s =>
    match var (globals s) with
    | Some v => (Returns v, s)
    | None => (Raises (NameError name), s)
    end.

Definition assign (upd : Globals -> Globals) : M unit :=
  fun s => (Returns tt, mkNB (upd (globals s)) (stdout s) (displayed s) (trace s)).

(** Setters for the global variables and the attributes assigned to. *)
Definition set_bucket (v : string) (g : Globals) : Globals :=
  mkGlobals (Some v) (prefix g) (execution_role g) (image g) (train_key g)
    (s3_train_data g) (input_data g) (ip_insights g) (predictor g)
    (s3_infer_data g) (inference_data g) (infer_key g).

Definition set_prefix (v : string) (g : Globals) : Globals :=
  mkGlobals (bucket g) (Some v) (execution_role g) (image g) (train_key g)
    (s3_train_data g) (input_data g) (ip_insights g) (predictor g)
    (s3_infer_data g) (inference_data g) (infer_key g).

Definition set_execution_role (v : string) (g : Globals) : Globals :=
  mkGlobals (bucket g) (prefix g) (Some v) (image g) (train_key g)
    (s3_train_data g) (input_data g) (ip_insights g) (predictor g)
    (s3_infer_data g) (inference_data g) (infer_key g).

Definition set_image (v : string) (g : Globals) : Globals :=
  mkGlobals (bucket g) (prefix g) (execution_role g) (Some v) (train_key g)
    (s3_train_data g) (input_data g) (ip_insights g) (predictor g)
    (s3_infer_data g) (inference_data g) (infer_key g).

Definition set_train_key (v : string) (g : Globals) : Globals :=
  mkGlobals (bucket g) (prefix g) (execution_role g) (image g) (Some v)
    (s3_train_data g) (input_data g) (ip_insights g) (predictor g)
    (s3_infer_data g) (inference_data g) (infer_key g).

Definition set_s3_train_data (v : string) (g : Globals) : Globals :=
  mkGlobals (bucket g) (prefix g) (execution_role g) (image g) (train_key g)
    (Some v) (input_data g) (ip_insights g) (predictor g)
    (s3_infer_data g) (inference_data g) (infer_key g).

Definition set_input_data (v : list (string * s3_input)) (g : Globals) : Globals :=
  mkGlobals (bucket g) (prefix g) (execution_role g) (image g) (train_key g)
    (s3_train_data g) (Some v) (ip_insights g) (predictor g)
    (s3_infer_data g) (inference_data g) (infer_key g).

Definition set_ip_insights (v : Estimator) (g : Globals) : Globals :=
  mkGlobals (bucket g) (prefix g) (execution_role g) (image g) (train_key g)
    (s3_train_data g) (input_data g) (Some v) (predictor g)
    (s3_infer_data g) (inference_data g) (infer_key g).

Definition set_predictor (v : Predictor) (g : Globals) : Globals :=
  mkGlobals (bucket g) (prefix g) (execution_role g) (image g) (train_key g)
    (s3_train_data g) (input_data g) (ip_insights g) (Some v)
    (s3_infer_data g) (inference_data g) (infer_key g).

Definition set_s3_infer_data (v : string) (g : Globals) : Globals :=
  mkGlobals (bucket g) (prefix g) (execution_role g) (image g) (train_key g)
    (s3_train_data g) (input_data g) (ip_insights g) (predictor g)
    (Some v) (inference_data g) (infer_key g).

Definition set_inference_data (v : DataFrame) (g : Globals) : Globals :=
  mkGlobals (bucket g) (prefix g) (execution_role g) (image g) (train_key g)
    (s3_train_data g) (input_data g) (ip_insights g) (predictor g)
    (s3_infer_data g) (Some v) (infer_key g).

Definition set_infer_key (v : string) (g : Globals) : Globals :=
  mkGlobals (bucket g) (prefix g) (execution_role g) (image g) (train_key g)
    (s3_train_data g) (input_data g) (ip_insights g) (predictor g)
    (s3_infer_data g) (inference_data g) (Some v).

Definition set_hyperparam_dict (d : gmap string string) (e : Estimator) : Estimator :=
  mkEstimator (image_name e) (role e) (train_instance_count e)
    (train_instance_type e) (output_path e) d (latest_training_job e).

Definition set_latest_training_job (job : string) (e : Estimator) : Estimator :=
  mkEstimator (image_name e) (role e) (train_instance_count e)
    (train_instance_type e) (output_path e) (hyperparam_dict e) (Some job).

Definition set_content_type (v : string) (p : Predictor) : Predictor :=
  mkPredictor (endpoint p) (Some v) (serializer p) (accept p) (deserializer p).

Definition set_serializer (v : Serializer) (p : Predictor) : Predictor :=
  mkPredictor (endpoint p) (content_type p) (Some v) (accept p) (deserializer p).

Definition set_accept (v : string) (p : Predictor) : Predictor :=
  mkPredictor (endpoint p) (content_type p) (serializer p) (Some v) (deserializer p).

Definition set_deserializer (v : Deserializer) (p : Predictor) : Predictor :=
  mkPredictor (endpoint p) (content_type p) (serializer p) (accept p) (Some v).

(** ** Library functions that run inside the notebook process *)

(** [os.path.join] (posixpath): a component starting with a slash restarts
    the path; otherwise components are glued with one slash unless the path
    so far is empty or already ends in one. *)
Definition startswith_slash (s : string) : bool :=
  match s with
  | String c _ => Ascii.eqb c "/"%char
  | EmptyString => false
  end.

Fixpoint endswith_slash (s : string) : bool :=
  match s with
  | EmptyString => false
  | String c EmptyString => Ascii.eqb c "/"%char
  | String _ rest => endswith_slash rest
  end.

Definition join_component (path b : string) : string :=
  if startswith_slash b then b
  else if String.eqb path EmptyString || endswith_slash path then path +:+ b
  else path +:+ "/" +:+ b.

Definition os_path_join (a : string) (p : list string) : string :=
  foldl join_component a p.

(** ['s3://{}/{}'.format(b, key)] *)
Definition s3_uri (b key : string) : string := "s3://" +:+ b +:+ "/" +:+ key.

(** [pandas.read_csv] with every option at its default reads the records of
    the object, skipping blank lines. *)
Definition records_of (obj : csv_object) : list TupleRecord :=
  omap (fun l => match l with RecordLine r => Some r | BlankLine => None end) obj.

(** The first record names the columns: an empty name becomes
    [Unnamed: i] for column i, and a name that repeats gets [.1] appended. *)
Definition column_labels (header : TupleRecord) : string * string :=
  let first :=
    if String.eqb (principalId header) EmptyString then "Unnamed: 0"
    else principalId header in
  let second :=
    if String.eqb (ipAddress header) EmptyString then "Unnamed: 1"
    else ipAddress header in
  (first, if String.eqb second first then second +:+ ".1" else second).

(** pandas then types every cell.  A cell that can be read as a missing
    value, a number or a boolean may end up as one (depending on the rest of
    its column), and is then printed as [str] of that value; any other cell
    stays the string it is.  The three tests below err on the side of
    "may be typed": they accept every token pandas can convert. *)
Definition na_tokens : list string :=
  [ EmptyString; "#N/A"; "#N/A N/A"; "#NA"; "-1.#IND"; "-1.#QNAN"; "-NaN";
    "-nan"; "1.#IND"; "1.#QNAN"; "<NA>"; "N/A"; "NA"; "NULL"; "NaN"; "None";
    "n/a"; "nan"; "null" ].

Definition maybe_missing (s : string) : bool :=
  existsb (String.eqb s) na_tokens.

Definition among (chars : string) (c : Ascii.ascii) : bool :=
  existsb (Ascii.eqb c) (list_ascii_of_string chars).

Definition blank_char (c : Ascii.ascii) : bool :=
  Ascii.eqb c " "%char || Ascii.eqb c "009"%char || Ascii.eqb c "010"%char
  || Ascii.eqb c "011"%char || Ascii.eqb c "012"%char || Ascii.eqb c "013"%char.

(** Digits, sign, decimal point, exponent mark, the letters of [inf],
    [infinity] and [nan], and blanks around them; at most one point. *)
Definition numeric_char (c : Ascii.ascii) : bool :=
  among "0123456789+-.eEiInNfFtTyYaA" c || blank_char c.

Definition points (s : string) : nat :=
  List.length (List.filter (fun c => Ascii.eqb c "."%char) (list_ascii_of_string s)).

Definition maybe_number (s : string) : bool :=
  forallb numeric_char (list_ascii_of_string s) && (points s <=? 1)%nat.

(** The letters of [true] and [false] in either case. *)
Definition maybe_boolean (s : string) : bool :=
  forallb (among "truefalsTRUEFALS") (list_ascii_of_string s).

Definition certainly_text (s : string) : bool :=
  negb (maybe_missing s || maybe_number s || maybe_boolean s).

(** The csv module's writer as [csv_serializer] drives it (excel dialect,
    minimal quoting): a field is quoted when it holds the delimiter, the
    quote character or a line break, and quotes inside it are doubled. *)
Definition quotechar : Ascii.ascii := "034"%char.
Definition newline : string := String "010"%char EmptyString.

Definition special (c : Ascii.ascii) : bool :=
  Ascii.eqb c ","%char || Ascii.eqb c quotechar
  || Ascii.eqb c "013"%char || Ascii.eqb c "010"%char.

Fixpoint has_special (s : string) : bool :=
  match s with
  | EmptyString => false
  | String c rest => special c || has_special rest
  end.

Fixpoint double_quotes (s : string) : string :=
  match s with
  | EmptyString => EmptyString
  | String c rest =>
      if Ascii.eqb c quotechar then String c (String c (double_quotes rest))
      else String c (double_quotes rest)
  end.

Definition csv_field (s : string) : string :=
  if has_special s
  then String quotechar (double_quotes s +:+ String quotechar EmptyString)
  else s.

Definition serialize_row (r : TupleRecord) : string :=
  csv_field (principalId r) +:+ "," +:+ csv_field (ipAddress r).

(** [csv_serializer(data)] on a two-dimensional array: one CSV line per row,
    joined by newlines; an array without rows is refused. *)
Definition csv_serialize (data : list TupleRecord) : result string :=
  match data with
  | [] => Raises (ValueError "Cannot serialize empty array")
  | _ :: _ => Returns (String.concat newline (map serialize_row data))
  end.

(** [json_deserializer(stream, content_type)]: [json.load] of the stream. *)
Definition json_deserialize (body : ResponseBody) : result json :=
  match body with
  | JsonText doc => Returns doc
  | OtherText _ => Raises (ValueError "JSONDecodeError")
  end.

(** The ["predictions"] list of an IP Insights response, when the document
    has that shape. *)
Definition lookup_member (key : string) (members : list (string * json)) : option json :=
  snd <$> List.find (fun kv => String.eqb (fst kv) key) members.

Definition score_of (v : json) : option ScoreResult :=
  match v with
  | JObject members =>
      match lookup_member "dot_product" members with
      | Some (JNumber x) => Some (mkScore x)
      | _ => None
      end
  | _ => None
  end.

Definition predictions_of (v : json) : option (list ScoreResult) :=
  match v with
  | JObject members =>
      match lookup_member "predictions" members with
      | Some (JArray items) => mapM score_of items
      | _ => None
      end
  | _ => None
  end.

Definition scores (p : Prediction) : option (list ScoreResult) :=
  match p with
  | Deserialized v => predictions_of v
  | RawBody _ => None
  end.

(** [Estimator.set_hyperparameters] with keyword arguments: every keyword is stored in the
    estimator's dict under its own name, value untouched. *)
Definition set_hyperparameters (kwargs : list (string * string)) (e : Estimator) : Estimator :=
  set_hyperparam_dict
    (foldl (fun d kv => <[fst kv := snd kv]> d) (hyperparam_dict e) kwargs) e.

(** ** The SDK calls and the cells *)

(** What the operator types into cell 3. *)
Record Config : Type := mkConfig {
  cfg_bucket : string;
  cfg_prefix : string
}.

(** The four status lines of cell 5. *)
Definition msg_invalid_name : string :=
  "Hey! You either forgot to specify your S3 bucket"
  +:+ " or you gave your bucket an invalid name!".

Definition msg_no_permission (b : string) : string :=
  "Hey! You don't have permission to access the bucket, " +:+ b +:+ ".".

Definition msg_not_exist (b : string) : string :=
  "Hey! Your bucket, " +:+ b +:+ ", doesn't exist!".

Definition msg_stored_in (b p : string) : string :=
  "Training input/output will be stored in: s3://" +:+ b +:+ "/" +:+ p.

(** The keyword arguments of [set_hyperparameters] in cell 8. *)
Definition notebook_hyperparameters : list (string * string) :=
  [ ("num_entity_vectors", "20000");
    ("random_negative_sampling_rate", "5");
    ("vector_dim", "128");
    ("mini_batch_size", "1000");
    ("epochs", "5");
    ("learning_rate", "0.01") ].

Section Notebook.

Variable W : World.

(** A cell of row [i] of the data records [rows], as the frame's [.values]
    hand it to the CSV writer: the cell itself when it is plain text, what
    pandas' typing makes of it otherwise. *)
Definition printed_cell (rows : list TupleRecord) (i : nat)
    (column : TupleRecord -> string) (r : TupleRecord) : string :=
  if certainly_text (column r) then column r
  else column (printed_row W rows i).

Definition inferred_values (rows : list TupleRecord) : list TupleRecord :=
  imap (fun i r =>
          mkTuple (printed_cell rows i principalId r)
            (printed_cell rows i ipAddress r)) rows.

(** [pd.read_csv(uri)] with every option at its default: blank lines are
    skipped, the first record names the columns and is not a row, the cells
    of the other records are typed; an object without records is refused. *)
Definition read_csv (uri : string) : M DataFrame :=
  obj ← call (EvGetObject uri) (get_object W uri);
  match records_of obj with
  | [] => raise EmptyDataError
  | header :: rows =>
      mret (mkDataFrame (column_labels header) (inferred_values rows))
  end.

(** [ip_insights.fit(inputs)]: the job is created and remembered on the
    estimator, then the call blocks until the job is terminal, writing the
    training log to the cell output as it waits, and the SDK checks the
    state the job ended in. *)
Definition fit (inputs : list (string * s3_input)) : M unit :=
  e ← read "ip_insights" ip_insights;
  let req :=
    mkTrainingRequest (image_name e) (role e) (train_instance_count e)
      (train_instance_type e) (output_path e) inputs (hyperparam_dict e) in
  job ← call (EvCreateTrainingJob req) (create_training_job W req);
  assign (set_ip_insights (set_latest_training_job job e));;
  status ← call (EvWaitTrainingJob job) (Returns (wait_training_job W job));
  output_lines (training_log W job);;
  lift (check_job_status W job status).

(** [ip_insights.deploy(initial_instance_count=..., instance_type=...)]: the
    call blocks until the endpoint is up or has failed, and writes its
    progress line to the cell output meanwhile (output and trace are
    separate records, so the line is written before the call is answered). *)
Definition deploy (initial_instance_count : Z) (instance_type : string) : M Predictor :=
  e ← read "ip_insights" ip_insights;
  match latest_training_job e with
  | None => raise (ValueError "Estimator is not associated with a training job")
  | Some job =>
      let req := mkDeployRequest job initial_instance_count instance_type in
      output_lines (deploy_progress W req);;
      name ← call (EvCreateEndpoint req) (create_endpoint W req);
      mret (mkPredictor name None None None None)
  end.

(** [predictor.predict(data)]: serialize if a serializer is set, send one
    request with the predictor's content type and accept headers, then
    deserialize if a deserializer is set. *)
Definition predict (data : list TupleRecord) : M Prediction :=
  p ← read "predictor" predictor;
  body ← match serializer p with
         | Some csv_serializer =>
             text ← lift (csv_serialize data);
             mret (BodyText text)
         | None => mret (BodyArray data)
         end;
  let request := mkInvokeRequest (endpoint p) body (content_type p) (accept p) in
  response ← call (EvInvokeEndpoint request) (invoke_endpoint W request);
  match deserializer p with
  | Some json_deserializer =>
      doc ← lift (json_deserialize response);
      mret (Deserialized doc)
  | None => mret (RawBody response)
  end.

(** Cell 1: the imports and the greeting. *)
Definition cell_1 : M unit :=
  print "Welcome to IP Insights!".

(** Cell 3: the operator's bucket name and prefix. *)
Definition cell_3 (cfg : Config) : M unit :=
  assign (set_bucket (cfg_bucket cfg));;
  assign (set_prefix (cfg_prefix cfg)).

(** Cell 5: the execution role, then the bucket check. *)
Definition cell_5 : M unit :=
  r ← call EvGetExecutionRole (get_execution_role W);
  assign (set_execution_role r);;
  try_except_else
    (b ← read "bucket" bucket;
     call (EvHeadBucket b) (head_bucket W b))
    (fun e =>
       match e with
       | ParamValidationError => print msg_invalid_name
       | ClientError code =>
           if String.eqb code "403" then
             b ← read "bucket" bucket;
             print (msg_no_permission b)
           else if String.eqb code "404" then
             b ← read "bucket" bucket;
             print (msg_not_exist b)
           else raise e
       | _ => raise e
       end)
    (fun _ =>
       b ← read "bucket" bucket;
       p ← read "prefix" prefix;
       print (msg_stored_in b p)).

(** Cell 7: the algorithm image and the training input channel. *)
Definition cell_7 : M unit :=
  assign (set_image (get_image_uri W (region_name W) "ipinsights"));;
  p ← read "prefix" prefix;
  assign (set_train_key (os_path_join p ["train"; "cloudtrail_tuples.csv"]));;
  b ← read "bucket" bucket;
  k ← read "train_key" train_key;
  assign (set_s3_train_data (s3_uri b k));;
  d ← read "s3_train_data" s3_train_data;
  assign (set_input_data [("train", mk_s3_input d "FullyReplicated" "text/csv")]).

(** Cell 8: the estimator, its hyperparameters, and the training job. *)
Definition cell_8 : M unit :=
  i ← read "image" image;
  r ← read "execution_role" execution_role;
  b ← read "bucket" bucket;
  p ← read "prefix" prefix;
  assign (set_ip_insights
            (mkEstimator i r 1 "ml.m4.xlarge"
               ("s3://" +:+ b +:+ "/" +:+ p +:+ "/output") ∅ None));;
  e ← read "ip_insights" ip_insights;
  assign (set_ip_insights (set_hyperparameters notebook_hyperparameters e));;
  d ← read "input_data" input_data;
  fit d.

(** Cell 9: the training job's name. *)
Definition cell_9 : M unit :=
  e ← read "ip_insights" ip_insights;
  match latest_training_job e with
  | Some job => print ("Training job name: " +:+ job)
  | None => raise (OtherError "AttributeError")
  end.

(** Cell 11: the endpoint. *)
Definition cell_11 : M unit :=
  p ← deploy 1 "ml.m4.xlarge";
  assign (set_predictor p).

(** Cell 12: the endpoint's name. *)
Definition cell_12 : M unit :=
  p ← read "predictor" predictor;
  print ("Endpoint name: " +:+ endpoint p).

(** Cell 14: the request and response codecs, set on the predictor object. *)
Definition cell_14 : M unit :=
  p ← read "predictor" predictor;
  assign (set_predictor (set_content_type "text/csv" p));;
  p ← read "predictor" predictor;
  assign (set_predictor (set_serializer csv_serializer p));;
  p ← read "predictor" predictor;
  assign (set_predictor (set_accept "application/json" p));;
  p ← read "predictor" predictor;
  assign (set_predictor (set_deserializer json_deserializer p)).

(** Cell 16: inference on the training object.  [inference_data.head()] is
    computed and dropped; the cell shows the result of [predict]. *)
Definition cell_16 : M unit :=
  b ← read "bucket" bucket;
  k ← read "train_key" train_key;
  assign (set_s3_infer_data (s3_uri b k));;
  u ← read "s3_infer_data" s3_infer_data;
  df ← read_csv u;
  assign (set_inference_data df);;
  d ← read "inference_data" inference_data;
  r ← predict (values d);
  display r.

(** Cell 18: inference on the findings object. *)
Definition cell_18 : M unit :=
  p ← read "prefix" prefix;
  assign (set_infer_key (os_path_join p ["infer"; "guardduty_tuples.csv"]));;
  b ← read "bucket" bucket;
  k ← read "infer_key" infer_key;
  assign (set_s3_infer_data (s3_uri b k));;
  u ← read "s3_infer_data" s3_infer_data;
  df ← read_csv u;
  assign (set_inference_data df);;
  d ← read "inference_data" inference_data;
  r ← predict (values d);
  display r.

(** The code cells in notebook order, each with its index. *)
Definition code_cells (cfg : Config) : list (nat * M unit) :=
  [ (1%nat, cell_1); (3%nat, cell_3 cfg); (5%nat, cell_5); (7%nat, cell_7);
    (8%nat, cell_8); (9%nat, cell_9); (11%nat, cell_11); (12%nat, cell_12);
    (14%nat, cell_14); (16%nat, cell_16); (18%nat, cell_18) ].

End Notebook.

(** ** Running the notebook *)

(** How a run ends: every cell ran, or the cell with the given index raised
    and the cells after it were not run. *)
Inductive RunOutcome : Type :=
| Finished
| Halted (cell : nat) (e : Exn).

(** Cells run top to bottom in one interpreter; a cell that raises stops
    the run. *)
Fixpoint run_cells (cells : list (nat * M unit)) (s : NB) : RunOutcome * NB :=
  match cells with
  | [] => (Finished, s)
  | (i, c) :: rest =>
      match c s with
      | (Returns _, s') => run_cells rest s'
      | (Raises e, s') => (Halted i e, s')
      end
  end.

Definition run_all (W : World) (cfg : Config) : RunOutcome * NB :=
  run_cells (code_cells W cfg) fresh.

(** Observations on a trace. *)
Definition is_training_submission (ev : Event) : bool :=
  match ev with EvCreateTrainingJob _ => true | _ => false end.

Definition is_deployment (ev : Event) : bool :=
  match ev with EvCreateEndpoint _ => true | _ => false end.

Definition is_inference (ev : Event) : bool :=
  match ev with EvInvokeEndpoint _ => true | _ => false end.

Definition is_storage_call (ev : Event) : bool :=
  match ev with EvHeadBucket _ | EvGetObject _ => true | _ => false end.

(** Calls that create or change something on the remote side; the others
    only read. *)
Definition mutates (ev : Event) : bool :=
  match ev with
  | EvCreateTrainingJob _ | EvCreateEndpoint _ => true
  | EvGetExecutionRole | EvHeadBucket _ | EvWaitTrainingJob _
  | EvGetObject _ | EvInvokeEndpoint _ => false
  end.

(** ** The vocabulary of the specification *)

(** The failure classes the bucket check reports, and the line that reports
    each. *)
Inductive Report : Type := InvalidConfiguration | AccessDenied | NotFound.

Definition report_line (r : Report) (b : string) : string :=
  match r with
  | InvalidConfiguration => msg_invalid_name
  | AccessDenied => msg_no_permission b
  | NotFound => msg_not_exist b
  end.

(** The classification in the specification's words: a parameter validation
    failure is an invalid configuration, client error 403 is a denied
    access, client error 404 is a missing container, and everything else is
    left unclassified. *)
Definition classify (e : Exn) : option Report :=
  match e with
  | ParamValidationError => Some InvalidConfiguration
  | ClientError code =>
      if decide (code = "403") then Some AccessDenied
      else if decide (code = "404") then Some NotFound
      else None
  | _ => None
  end.

(** The interpreter after cells 1 and 3 of a fresh run. *)
Definition configured (cfg : Config) : NB :=
  mkNB (set_prefix (cfg_prefix cfg) (set_bucket (cfg_bucket cfg) no_globals))
    ["Welcome to IP Insights!"] [] [].

(** The state cell 5 leaves behind once the execution role [r] is known and
    the probe of the bucket has been made, with [out] printed. *)
Definition after_check (s : NB) (r b : string) (out : list string) : NB :=
  mkNB (set_execution_role r (globals s)) (stdout s ++ out) (displayed s)
    (trace s ++ [EvGetExecutionRole; EvHeadBucket b]).

(** ** The service side of an inference request *)

(** A reader for the CSV text an endpoint receives: records end at a line
    feed, fields at a comma, a field opened by a quote runs to the next
    single quote, and a doubled quote inside it stands for one. *)
Inductive ReaderState : Type := FieldStart | InUnquoted | InQuoted | QuoteSeen.

Definition push (field : string) (c : Ascii.ascii) : string :=
  field +:+ String c EmptyString.

Fixpoint csv_read (st : ReaderState) (field : string) (record : list string)
    (s : string) : list (list string) :=
  match s with
  | EmptyString => [(record ++ [field])%list]
  | String c rest =>
      let plain :=
        if Ascii.eqb c ","%char then
          csv_read FieldStart EmptyString (record ++ [field])%list rest
        else if Ascii.eqb c "010"%char then
          (record ++ [field])%list :: csv_read FieldStart EmptyString [] rest
        else csv_read InUnquoted (push field c) record rest in
      match st with
      | FieldStart =>
          if Ascii.eqb c quotechar then csv_read InQuoted field record rest
          else plain
      | InUnquoted => plain
      | InQuoted =>
          if Ascii.eqb c quotechar then csv_read QuoteSeen field record rest
          else csv_read InQuoted (push field c) record rest
      | QuoteSeen =>
          if Ascii.eqb c quotechar then csv_read InQuoted (push field c) record rest
          else plain
      end
  end.

(** What the reader does once a field is complete and the text goes on with
    [tail]: at the end the record is closed, at a comma the next field of
    the record starts, at a line feed the next record starts. *)
Definition finish_field (field : string) (record : list string) (tail : string)
    : list (list string) :=
  match tail with
  | EmptyString => [(record ++ [field])%list]
  | String c rest =>
      if Ascii.eqb c ","%char then
        csv_read FieldStart EmptyString (record ++ [field])%list rest
      else (record ++ [field])%list :: csv_read FieldStart EmptyString [] rest
  end.

Definition separator_next (tail : string) : bool :=
  match tail with
  | EmptyString => true
  | String c _ => Ascii.eqb c ","%char || Ascii.eqb c "010"%char
  end.

Definition csv_records (text : string) : list (list string) :=
  csv_read FieldStart EmptyString [] text.

Definition fields (r : TupleRecord) : list string := [principalId r; ipAddress r].

(** The response document of IP Insights for a list of scores. *)
Definition predictions_doc (xs : list Q) : json :=
  JObject [("predictions",
            JArray (map (fun x => JObject [("dot_product", JNumber x)]) xs))].

(** An endpoint that scores every record of the request body with [score],
    in the order of the body. *)
Definition scores_each_record (W : World) (score : list string -> Q) : Prop :=
  ∀ req text,
    RequestBody req = BodyText text →
    invoke_endpoint W req
    = Returns (JsonText (predictions_doc (map score (csv_records text)))).

(** ** Sample worlds *)

(** The status check of the SDK once the wait is over: a job that ended
    [Completed] or [Stopped] passes; a job that ended [Failed] raises, the
    message naming the job and the reason the service gives. *)
Definition sdk_check (reason job : string) (st : JobStatus) : result unit :=
  match st with
  | Completed | Stopped => Returns tt
  | Failed =>
      Raises (ValueError ("Error for Training job " +:+ job
                          +:+ ": Failed. Reason: " +:+ reason))
  end.

(** A pandas that finds nothing to convert: every cell is printed as it is
    in the file. *)
Definition printed_as_read (rows : list TupleRecord) (i : nat) : TupleRecord :=
  nth i rows (mkTuple EmptyString EmptyString).

(** A stand-in model: the score of a record is the number of its fields. *)
Definition sample_score (record : list string) : Q :=
  inject_Z (Z.of_nat (List.length record)).

Definition sample_endpoint (req : InvokeRequest) : result ResponseBody :=
  match RequestBody req with
  | BodyText text =>
      Returns (JsonText (predictions_doc (map sample_score (csv_records text))))
  | BodyArray _ => Raises ParamValidationError
  end.

(** An account in which everything but the bucket check, the answer to a
    training submission, the objects and the fate of the training job is
    fixed. *)
Definition workshop (head : string -> result unit)
    (submit : result string) (objects : string -> result csv_object)
    (st : JobStatus) : World :=
  mkWorld (Returns "arn:aws:iam::123456789012:role/workshop") head "us-west-2"
    (fun region algorithm => region +:+ "/" +:+ algorithm)
    (fun _ => submit) (fun _ => st) (sdk_check "AlgorithmError")
    (fun d => Returns (dep_training_job d)) objects sample_endpoint
    (fun _ => ["....."; "Training seconds: 83"; "Billable seconds: 83"])
    (fun _ => ["-----!"]) printed_as_read.

(** The objects of the specification's scenario, the findings object taking
    the given lines. *)
Definition scenario_objects (findings : csv_object) (uri : string) : result csv_object :=
  if String.eqb uri "s3://sec405-tuplesbucket-ABC123/train/cloudtrail_tuples.csv"
  then Returns [mkTuple "user-1" "10.0.0.5"; mkTuple "user-2" "10.0.0.9"]
  else if String.eqb uri "s3://sec405-tuplesbucket-ABC123/infer/guardduty_tuples.csv"
  then Returns findings
  else Raises (ClientError "NoSuchKey").

Definition no_objects (uri : string) : result csv_object :=
  Raises (ClientError "NoSuchBucket").

Definition scenario_config : Config :=
  mkConfig "sec405-tuplesbucket-ABC123" EmptyString.

Definition one_finding : csv_object := [mkTuple "user-1" "203.0.113.44"].

Definition headed_finding : csv_object :=
  [mkTuple "principal" "ip"; mkTuple "user-1" "203.0.113.44"].

(** The scenario as the specification gives it. *)
Definition scenario_world : World :=
  workshop (fun _ => Returns tt) (Returns "ipinsights-job-1")
    (scenario_objects one_finding) Completed.

(** The scenario with a header line in the findings object. *)
Definition headed_world : World :=
  workshop (fun _ => Returns tt) (Returns "ipinsights-job-1")
    (scenario_objects headed_finding) Completed.

(** An account without the configured bucket: the probe answers 404 and the
    training service turns the submission down. *)
Definition missing_bucket_world : World :=
  workshop (fun _ => Raises (ClientError "404"))
    (Raises (ClientError "ValidationException")) no_objects Completed.

(** An account whose S3 client rejects the empty bucket name before sending
    anything, and whose training service turns the submission down. *)
Definition empty_name_world : World :=
  workshop
    (fun b => if String.eqb b EmptyString then Raises ParamValidationError else Returns tt)
    (Raises (ClientError "ValidationException")) no_objects Completed.

Definition empty_name_config : Config := mkConfig EmptyString EmptyString.

(** The scenario with a blank line between the header and the row of the
    findings object. *)
Definition gapped_finding : csv_object :=
  [RecordLine (mkTuple "principal" "ip"); BlankLine;
   RecordLine (mkTuple "user-1" "203.0.113.44")].

Definition gapped_world : World :=
  workshop (fun _ => Returns tt) (Returns "ipinsights-job-1")
    (scenario_objects gapped_finding) Completed.

(** The scenario with a training job that ends [Stopped]. *)
Definition stopped_job_world : World :=
  workshop (fun _ => Returns tt) (Returns "ipinsights-job-1")
    (scenario_objects headed_finding) Stopped.

(** The scenario with a training job that ends [Failed]. *)
Definition failed_job_world : World :=
  workshop (fun _ => Returns tt) (Returns "ipinsights-job-1")
    (scenario_objects headed_finding) Failed.

(** The training request cell 8 submits in the scenario. *)
Definition scenario_request : TrainingRequest :=
  mkTrainingRequest "us-west-2/ipinsights"
    "arn:aws:iam::123456789012:role/workshop" 1 "ml.m4.xlarge"
    "s3://sec405-tuplesbucket-ABC123//output"
    [("train",
      mk_s3_input "s3://sec405-tuplesbucket-ABC123/train/cloudtrail_tuples.csv"
        "FullyReplicated" "text/csv")]
    (list_to_map notebook_hyperparameters).

(** A predictor as cell 14 leaves it. *)
Definition codec_predictor (name : string) : Predictor :=
  mkPredictor name (Some "text/csv") (Some csv_serializer)
    (Some "application/json") (Some json_deserializer).

(** The scenario once cell 14 has run. *)
Definition serving : NB :=
  mkNB (set_predictor (codec_predictor "ipinsights-job-1")
          (set_train_key "train/cloudtrail_tuples.csv"
             (globals (configured scenario_config))))
    [] [] [].

(** ** The trace only grows *)

Definition extends_trace (s s' : NB) : Prop :=
  ∃ evs, trace s' = trace s ++ evs.

Definition monotone {A} (m : M A) : Prop :=
  ∀ s, extends_trace s (snd (m s)).

(** ** Further vocabulary for statements about cells and runs *)

(** The interpreter with [predictor] rebound. *)
Definition with_predictor (p : Predictor) (s : NB) : NB :=
  mkNB (set_predictor p (globals s)) (stdout s) (displayed s) (trace s).


(** The interpreter once [req] has been sent to the endpoint. *)
Definition sent (req : InvokeRequest) (s : NB) : NB :=
  mkNB (globals s) (stdout s) (displayed s) (trace s ++ [EvInvokeEndpoint req]).

(** The request [predict] builds from a batch when the predictor has the CSV
    serializer. *)
Definition csv_request (p : Predictor) (rows : list TupleRecord) : InvokeRequest :=
  mkInvokeRequest (endpoint p)
    (BodyText (String.concat newline (map serialize_row rows)))
    (content_type p) (accept p).

(** A computation that leaves one observation [f] of the global variables
    as it found it. *)
Definition preserves {A B} (f : Globals → B) (m : M A) : Prop :=
  ∀ s, f (globals (snd (m s))) = f (globals s).

(** The kinds of remote calls, and the kinds a complete run makes, in
    order. *)
Inductive CallKind : Type :=
| RoleLookup | BucketProbe | TrainingSubmission | TrainingWait
| EndpointCreation | ObjectRead | Invocation.

Definition kind (ev : Event) : CallKind :=
  match ev with
  | EvGetExecutionRole => RoleLookup
  | EvHeadBucket _ => BucketProbe
  | EvCreateTrainingJob _ => TrainingSubmission
  | EvWaitTrainingJob _ => TrainingWait
  | EvCreateEndpoint _ => EndpointCreation
  | EvGetObject _ => ObjectRead
  | EvInvokeEndpoint _ => Invocation
  end.

Definition full_run : list CallKind :=
  [RoleLookup; BucketProbe; TrainingSubmission; TrainingWait; EndpointCreation;
   ObjectRead; Invocation; ObjectRead; Invocation].

(** The objects read from storage, and the objects handed to training as
    input channels, in the order of the trace. *)
Definition uris_read (t : list Event) : list string :=
  omap (fun ev => match ev with EvGetObject uri => Some uri | _ => None end) t.

(** The training requests submitted and the inference requests sent, in the
    order of the trace. *)
Definition training_requests (t : list Event) : list TrainingRequest :=
  omap (fun ev => match ev with EvCreateTrainingJob req => Some req | _ => None end) t.

Definition requests_sent (t : list Event) : list InvokeRequest :=
  omap (fun ev => match ev with EvInvokeEndpoint req => Some req | _ => None end) t.

Definition training_uris (t : list Event) : list string :=
  flat_map
    (fun ev =>
       match ev with
       | EvCreateTrainingJob req =>
           map (fun c => s3_data (snd c)) (req_input_config req)
       | _ => []
       end) t.

(** * Proofs *)

(** ** Running cells symbolically *)

Ltac monad_unfold :=
  cbv beta iota delta
    [mbind M_bind bind mret M_ret ret raise lift call read assign print
     output_lines display try_except_else].

(** One step of evaluation: the monad's operations are unfolded and the
    projections of the state are computed.  The step is recorded as a
    conversion checked by the virtual machine, which compares normal forms
    and so does not depend on how deep the states are nested. *)
Ltac exec_step :=
  match goal with
  | |- ?G =>
      let G1 := eval cbv beta iota delta
        [mbind M_bind bind mret M_ret ret raise lift call read assign print
         output_lines display try_except_else] in G in
      let G2 := eval cbn
        [globals stdout displayed trace
         bucket prefix execution_role image train_key s3_train_data input_data
         ip_insights predictor s3_infer_data inference_data infer_key
         set_bucket set_prefix set_execution_role set_image set_train_key
         set_s3_train_data set_input_data set_ip_insights set_predictor
         set_s3_infer_data set_inference_data set_infer_key
         image_name role train_instance_count train_instance_type output_path
         hyperparam_dict latest_training_job set_latest_training_job
         set_hyperparam_dict set_hyperparameters
         endpoint content_type serializer accept deserializer
         set_content_type set_serializer set_accept set_deserializer
         columns values fst snd String.eqb Ascii.eqb Bool.eqb
         cfg_bucket cfg_prefix no_globals fresh app] in G1 in
      refine ((_ : G2) <: G)
  end.

Ltac exec := repeat (progress exec_step).

(** Case analysis on the next answer of the world. *)
Ltac oracle :=
  match goal with
  | |- context [match get_execution_role ?W with _ => _ end] =>
      destruct (get_execution_role W) eqn:?
  | |- context [match head_bucket ?W ?b with _ => _ end] =>
      destruct (head_bucket W b) as [[]|[]] eqn:?
  | |- context [match create_training_job ?W ?r with _ => _ end] =>
      destruct (create_training_job W r) eqn:?
  | |- context [match check_job_status ?W ?j ?st with _ => _ end] =>
      destruct (check_job_status W j st) as [[]|] eqn:?
  | |- context [match create_endpoint ?W ?r with _ => _ end] =>
      destruct (create_endpoint W r) eqn:?
  | |- context [match get_object ?W ?u with _ => _ end] =>
      destruct (get_object W u) eqn:?
  | |- context [match records_of ?o with _ => _ end] =>
      destruct (records_of o) as [|? ?] eqn:?
  | |- context [match invoke_endpoint ?W ?r with _ => _ end] =>
      destruct (invoke_endpoint W r) as [[]|] eqn:?
  | |- context [match csv_serialize ?d with _ => _ end] =>
      destruct d eqn:?; cbn [csv_serialize]
  | |- context [if String.eqb ?c ?d then _ else _] =>
      destruct (String.eqb_spec c d)
  end.

(** Two different answers recorded for one call. *)
Ltac clash :=
  match goal with
  | H1 : ?x = Returns _, H2 : ?x = Raises _ |- _ =>
      rewrite H1 in H2; discriminate
  end.



(** ** Cell 5 *)

(** C4.  The bucket check sorts the failures of the probe as the
    specification's taxonomy does: a parameter validation failure, a client
    error 403 and a client error 404 are reported by their own line
    (InvalidConfiguration, AccessDenied, NotFound) and the cell returns; any
    other exception leaves the cell as it came, with nothing printed. *)
Theorem bucket_check_classification (W : World) (s : NB) (b r : string) (e : Exn) :
  bucket (globals s) = Some b →
  get_execution_role W = Returns r →
  head_bucket W b = Raises e →
  cell_5 W s =
    match classify e with
    | Some report => (Returns tt, after_check s r b [report_line report b])
    | None => (Raises e, after_check s r b [])
    end.
Proof.
  intros Hb Hr He. unfold cell_5, after_check. exec.
  rewrite Hr. exec. rewrite Hb. exec. rewrite He.
  destruct e as [|code| | | |]; cbn [classify]; exec;
    rewrite <- ?app_assoc, ?app_nil_r; try reflexivity.
  repeat case_decide; subst; exec.
  - rewrite Hb. reflexivity.
  - rewrite Hb. reflexivity.
  - destruct (String.eqb_spec code "403"); [congruence|].
    destruct (String.eqb_spec code "404"); [congruence|]. reflexivity.
Qed.

Lemma bucket_check_classification_witness :
  let s := configured (mkConfig "no-such-bucket" EmptyString) in
  cell_5 missing_bucket_world s
  = (Returns tt,
     after_check s "arn:aws:iam::123456789012:role/workshop" "no-such-bucket"
       [msg_not_exist "no-such-bucket"]).
Proof.
  intros s.
  exact (bucket_check_classification missing_bucket_world s "no-such-bucket"
           "arn:aws:iam::123456789012:role/workshop" (ClientError "404")
           eq_refl eq_refl eq_refl).
Defined.

(** C9.  Whatever the state and the world, cell 5 makes only reading calls
    (the role lookup and, at most once, the probe of the configured bucket:
    no training, deployment or inference call and nothing that creates or
    changes a remote resource), prints at most one line, exactly one of its
    four status lines when it returns, and shows no result. *)
Theorem bucket_check_read_only (W : World) (s : NB) :
  ∃ (evs : list Event) (out : list string),
    trace (snd (cell_5 W s)) = trace s ++ evs
    ∧ (evs = [EvGetExecutionRole]
       ∨ ∃ b, bucket (globals s) = Some b
              ∧ evs = [EvGetExecutionRole; EvHeadBucket b])
    ∧ forallb (fun ev => negb (mutates ev)) evs = true
    ∧ stdout (snd (cell_5 W s)) = stdout s ++ out
    ∧ (out = [] ∧ fst (cell_5 W s) ≠ Returns tt
       ∨ fst (cell_5 W s) = Returns tt
         ∧ ∃ b, bucket (globals s) = Some b
                ∧ (out = [msg_invalid_name] ∨ out = [msg_no_permission b]
                   ∨ out = [msg_not_exist b]
                   ∨ ∃ p, prefix (globals s) = Some p
                          ∧ out = [msg_stored_in b p]))
    ∧ displayed (snd (cell_5 W s)) = displayed s.
Proof.
  unfold cell_5. exec.
  destruct (get_execution_role W) as [r|e]; exec.
  2:{ exists [EvGetExecutionRole], []. rewrite app_nil_r.
      intuition (eauto; discriminate). }
  destruct (bucket (globals s)) as [b|] eqn:Hb; exec.
  2:{ exists [EvGetExecutionRole], []. rewrite app_nil_r.
      intuition (eauto; discriminate). }
  exists [EvGetExecutionRole; EvHeadBucket b].
  destruct (head_bucket W b) as [[]|e]; exec.
  - rewrite Hb. exec.
    destruct (prefix (globals s)) as [p|] eqn:Hp; exec.
    + exists [msg_stored_in b p]. rewrite <- app_assoc.
      intuition eauto 10.
    + exists []. rewrite <- app_assoc, app_nil_r.
      intuition (eauto; discriminate).
  - destruct e as [|code| | | |]; exec.
    2:{ destruct (String.eqb_spec code "403"); exec;
          [|destruct (String.eqb_spec code "404"); exec].
        - rewrite Hb. exec. exists [msg_no_permission b]. rewrite <- app_assoc.
          intuition eauto 10.
        - rewrite Hb. exec. exists [msg_not_exist b]. rewrite <- app_assoc.
          intuition eauto 10.
        - exists []. rewrite <- app_assoc, app_nil_r.
          intuition (eauto; discriminate). }
    1:{ exists [msg_invalid_name]. rewrite <- app_assoc.
        intuition eauto 10. }
    all: exists []; rewrite <- app_assoc, app_nil_r;
      intuition (eauto; discriminate).
Qed.

(** ** Cells never rewrite the trace *)

Lemma extends_refl (s : NB) : extends_trace s s.
Proof. exists []. symmetry. apply app_nil_r. Qed.

Lemma extends_trans (s1 s2 s3 : NB) :
  extends_trace s1 s2 → extends_trace s2 s3 → extends_trace s1 s3.
Proof.
  intros [e1 H1] [e2 H2]. exists (e1 ++ e2).
  rewrite H2, H1. symmetry. apply app_assoc.
Qed.

Lemma extends_same (s s' : NB) : trace s' = trace s → extends_trace s s'.
Proof. intros H. exists []. rewrite H. symmetry. apply app_nil_r. Qed.

Lemma monotone_mret {A} (a : A) : monotone (mret a).
Proof. intros s. apply extends_refl. Qed.

Lemma monotone_raise {A} (e : Exn) : monotone (raise (A:=A) e).
Proof. intros s. apply extends_refl. Qed.

Lemma monotone_lift {A} (r : result A) : monotone (lift r).
Proof. intros s. apply extends_refl. Qed.

Lemma monotone_print (line : string) : monotone (print line).
Proof. intros s. apply extends_same. reflexivity. Qed.

Lemma monotone_output_lines (lines : list string) : monotone (output_lines lines).
Proof. intros s. apply extends_same. reflexivity. Qed.

Lemma monotone_display (v : Prediction) : monotone (display v).
Proof. intros s. apply extends_same. reflexivity. Qed.

Lemma monotone_assign (upd : Globals → Globals) : monotone (assign upd).
Proof. intros s. apply extends_same. reflexivity. Qed.

Lemma monotone_read {A} (name : string) (var : Globals → option A) :
  monotone (read name var).
Proof. intros s. unfold read. destruct (var (globals s)); apply extends_refl. Qed.

Lemma monotone_call {A} (ev : Event) (answer : result A) :
  monotone (call ev answer).
Proof. intros s. exists [ev]. reflexivity. Qed.

Lemma monotone_mbind {A B} (m : M A) (k : A → M B) :
  monotone m → (∀ a, monotone (k a)) → monotone (m ≫= k).
Proof.
  intros Hm Hk s. specialize (Hm s). monad_unfold.
  destruct (m s) as [[a|e] s']; cbn [snd] in *; [|exact Hm].
  eapply extends_trans; [exact Hm | apply Hk].
Qed.

Lemma monotone_try {A B} (body : M A) (handler : Exn → M B) (orelse : A → M B) :
  monotone body → (∀ e, monotone (handler e)) → (∀ a, monotone (orelse a)) →
  monotone (try_except_else body handler orelse).
Proof.
  intros Hb Hh Ho s. specialize (Hb s). unfold try_except_else.
  destruct (body s) as [[a|e] s']; cbn [snd] in *;
    (eapply extends_trans; [exact Hb |]); [apply Ho | apply Hh].
Qed.

Ltac mono :=
  repeat first
    [ apply monotone_mbind; [|intros ?]
    | apply monotone_try; [|intros ?|intros ?]
    | apply monotone_mret | apply monotone_raise | apply monotone_lift
    | apply monotone_print | apply monotone_output_lines
    | apply monotone_display | apply monotone_assign
    | apply monotone_read | apply monotone_call
    | match goal with
      | |- monotone (match ?x with _ => _ end) => destruct x
      end ].

Lemma code_cells_monotone (W : World) (cfg : Config) :
  Forall (fun c => monotone (snd c)) (code_cells W cfg).
Proof.
  unfold code_cells.
  repeat (apply Forall_cons; split); [..|constructor]; cbn [snd].
  all: unfold cell_1, cell_3, cell_5, cell_7, cell_8, cell_9, cell_11, cell_12,
         cell_14, cell_16, cell_18, fit, deploy, predict, read_csv.
  all: mono.
Qed.

Lemma run_cells_step (i : nat) (c : M unit) (rest : list (nat * M unit)) (s : NB) :
  run_cells ((i, c) :: rest) s
  = match c s with
    | (Returns _, s') => run_cells rest s'
    | (Raises e, s') => (Halted i e, s')
    end.
Proof. reflexivity. Qed.

(** Evaluation for whole runs.  Between two cells the interpreter state is
    brought to an explicit record, so that each step is a conversion about
    one cell on a flat state. *)
Ltac flat_step :=
  match goal with
  | |- ?G =>
      let G1 := eval cbv beta iota delta
        [mbind M_bind bind mret M_ret ret raise lift call read assign print
         output_lines display try_except_else] in G in
      let G2 := eval cbv beta iota delta
        [globals stdout displayed trace
         bucket prefix execution_role image train_key s3_train_data input_data
         ip_insights predictor s3_infer_data inference_data infer_key
         set_bucket set_prefix set_execution_role set_image set_train_key
         set_s3_train_data set_input_data set_ip_insights set_predictor
         set_s3_infer_data set_inference_data set_infer_key
         image_name role train_instance_count train_instance_type output_path
         hyperparam_dict latest_training_job set_latest_training_job
         set_hyperparam_dict set_hyperparameters
         endpoint content_type serializer accept deserializer
         set_content_type set_serializer set_accept set_deserializer
         columns values fst snd no_globals fresh] in G1 in
      let G3 := eval cbn
        [String.eqb Ascii.eqb Bool.eqb cfg_bucket cfg_prefix app] in G2 in
      refine ((_ : G3) <: G)
  end.

Ltac run_flat := repeat (progress flat_step).

(** Entering the next cell of a run. *)
Ltac enter_cell :=
  rewrite run_cells_step;
  unfold cell_1, cell_3, cell_5, cell_7, cell_8, cell_9, cell_11, cell_12,
    cell_14, cell_16, cell_18, fit, deploy, predict, read_csv,
    json_deserialize;
  run_flat.

(** The next cell of a run, with every answer the world can give to it. *)
Ltac next_cell := enter_cell; repeat (oracle; run_flat).

(** Every way a run from a fresh interpreter can go. *)
Ltac every_run :=
  unfold run_all, code_cells; unfold fresh, no_globals;
  repeat next_cell;
  try (unfold run_cells; run_flat).

Lemma run_cells_monotone (cells : list (nat * M unit)) :
  Forall (fun c => monotone (snd c)) cells →
  ∀ s, extends_trace s (snd (run_cells cells s)).
Proof.
  induction 1 as [|[i c] rest Hc _ IH]; intros s; cbn [run_cells].
  - apply extends_refl.
  - specialize (Hc s). cbn [snd] in Hc.
    destruct (c s) as [[[]|e] s']; cbn [snd] in *; [|exact Hc].
    eapply extends_trans; [exact Hc | apply IH].
Qed.

Lemma existsb_extends (p : Event → bool) (s s' : NB) :
  extends_trace s s' → existsb p (trace s) = true → existsb p (trace s') = true.
Proof.
  intros [evs ->] H. rewrite existsb_app, H. reflexivity.
Qed.

(** ** The bucket check does not stop the run *)

(** Once cell 5 has returned, the run always reaches the training
    submission of cell 8: nothing between the two can raise, and what the
    later cells do only adds to the trace. *)
Lemma training_submitted_after_check (W : World) (cfg : Config) (r : string)
    (out : list string) :
  existsb is_training_submission
    (trace (snd (run_cells (drop 3 (code_cells W cfg))
                   (after_check (configured cfg) r (cfg_bucket cfg) out))))
  = true.
Proof.
  pose proof (code_cells_monotone W cfg) as Hmono.
  unfold code_cells in *. cbn [drop].
  do 5 apply Forall_cons_1 in Hmono as [_ Hmono].
  unfold after_check, configured. run_flat.
  rewrite run_cells_step. unfold cell_7. run_flat.
  rewrite run_cells_step. unfold cell_8, fit. run_flat.
  match goal with
  | |- context [match create_training_job W ?req with _ => _ end] =>
      destruct (create_training_job W req) as [job|e]
  end; run_flat; [|reflexivity].
  destruct (check_job_status W job (wait_training_job W job)) as [[]|e];
    run_flat; [|reflexivity].
  eapply existsb_extends; [apply run_cells_monotone, Hmono|].
  reflexivity.
Qed.

Lemma run_cells_app (l1 l2 : list (nat * M unit)) (s : NB) :
  run_cells (l1 ++ l2) s
  = match run_cells l1 s with
    | (Finished, s') => run_cells l2 s'
    | halted => halted
    end.
Proof.
  revert s. induction l1 as [|[i c] l1 IH]; intros s; [reflexivity|].
  cbn [app]. rewrite !run_cells_step.
  destruct (c s) as [[[]|e] s']; [apply IH | reflexivity].
Qed.

(** When the first three code cells finish, the run is the run of the
    remaining cells from the state they leave. *)
Lemma run_all_after_check (W : World) (cfg : Config) (s : NB) :
  run_cells (take 3 (code_cells W cfg)) fresh = (Finished, s) →
  run_all W cfg = run_cells (drop 3 (code_cells W cfg)) s.
Proof.
  intros H. unfold run_all.
  rewrite <- (take_drop 3 (code_cells W cfg)) at 1.
  rewrite run_cells_app, H. reflexivity.
Qed.

(** C1 (amended).  When the configured bucket does not exist (the probe
    raises a client error with code 404), cell 5 reports NotFound by printing
    its doesn't-exist line and returns, having made only the role lookup and
    the probe; the run is not halted there: the following cells run and the
    training request is submitted. *)
Theorem missing_bucket_reported_run_continues (W : World) (cfg : Config) (r : string) :
  get_execution_role W = Returns r →
  head_bucket W (cfg_bucket cfg) = Raises (ClientError "404") →
  run_cells (take 3 (code_cells W cfg)) fresh
  = (Finished,
     after_check (configured cfg) r (cfg_bucket cfg)
       [msg_not_exist (cfg_bucket cfg)])
  ∧ existsb is_training_submission (trace (snd (run_all W cfg))) = true.
Proof.
  intros Hr He.
  assert (run_cells (take 3 (code_cells W cfg)) fresh
          = (Finished,
             after_check (configured cfg) r (cfg_bucket cfg)
               [msg_not_exist (cfg_bucket cfg)])) as Hrun.
  { unfold code_cells. cbn [take run_cells].
    unfold cell_1, cell_3, cell_5, after_check, configured. exec.
    rewrite Hr. exec. rewrite He. exec. reflexivity. }
  split; [exact Hrun|].
  rewrite (run_all_after_check _ _ _ Hrun).
  apply training_submitted_after_check.
Qed.

Lemma missing_bucket_reported_run_continues_witness :
  run_cells (take 3 (code_cells missing_bucket_world scenario_config)) fresh
  = (Finished,
     after_check (configured scenario_config)
       "arn:aws:iam::123456789012:role/workshop" (cfg_bucket scenario_config)
       [msg_not_exist (cfg_bucket scenario_config)])
  ∧ existsb is_training_submission
      (trace (snd (run_all missing_bucket_world scenario_config))) = true.
Proof.
  exact (missing_bucket_reported_run_continues missing_bucket_world
           scenario_config "arn:aws:iam::123456789012:role/workshop"
           eq_refl eq_refl).
Defined.

(** C1 as stated fails: in an account where the probe answers 404, the
    doesn't-exist line is printed, and yet the run goes on, submits the
    training request and only stops in cell 8, when the training service
    turns the request down. *)
Lemma missing_bucket_run_not_halted :
  head_bucket missing_bucket_world (cfg_bucket scenario_config)
  = Raises (ClientError "404")
  ∧ stdout (snd (run_all missing_bucket_world scenario_config))
    = ["Welcome to IP Insights!";
       "Hey! Your bucket, sec405-tuplesbucket-ABC123, doesn't exist!"]
  ∧ existsb is_training_submission
      (trace (snd (run_all missing_bucket_world scenario_config))) = true
  ∧ fst (run_all missing_bucket_world scenario_config)
    = Halted 8 (ClientError "ValidationException").
Proof. vm_compute. repeat split. Qed.

(** C2 (amended).  When the configured name is empty or malformed (the
    probe raises a parameter validation error), cell 5 reports
    InvalidConfiguration by printing its invalid-name line and returns; in
    the cell only the role lookup and the attempted probe were called,
    nothing of training or deployment; the run is not halted there: the
    following cells run and the training request is submitted. *)
Theorem invalid_name_reported_run_continues (W : World) (cfg : Config) (r : string) :
  get_execution_role W = Returns r →
  head_bucket W (cfg_bucket cfg) = Raises ParamValidationError →
  run_cells (take 3 (code_cells W cfg)) fresh
  = (Finished,
     after_check (configured cfg) r (cfg_bucket cfg) [msg_invalid_name])
  ∧ existsb is_training_submission (trace (snd (run_all W cfg))) = true.
Proof.
  intros Hr He.
  assert (run_cells (take 3 (code_cells W cfg)) fresh
          = (Finished,
             after_check (configured cfg) r (cfg_bucket cfg) [msg_invalid_name]))
    as Hrun.
  { unfold code_cells. cbn [take run_cells].
    unfold cell_1, cell_3, cell_5, after_check, configured. exec.
    rewrite Hr. exec. rewrite He. exec. reflexivity. }
  split; [exact Hrun|].
  rewrite (run_all_after_check _ _ _ Hrun).
  apply training_submitted_after_check.
Qed.

Lemma invalid_name_reported_run_continues_witness :
  run_cells (take 3 (code_cells empty_name_world empty_name_config)) fresh
  = (Finished,
     after_check (configured empty_name_config)
       "arn:aws:iam::123456789012:role/workshop" EmptyString [msg_invalid_name])
  ∧ existsb is_training_submission
      (trace (snd (run_all empty_name_world empty_name_config))) = true.
Proof.
  exact (invalid_name_reported_run_continues empty_name_world
           empty_name_config "arn:aws:iam::123456789012:role/workshop"
           eq_refl eq_refl).
Defined.

(** C2 as stated fails: with the empty name the storage client is called
    (and rejects the name), the invalid-name line is printed, and the run
    goes on to call the training service, stopping only in cell 8. *)
Lemma empty_name_run_not_halted :
  head_bucket empty_name_world (cfg_bucket empty_name_config)
  = Raises ParamValidationError
  ∧ stdout (snd (run_all empty_name_world empty_name_config))
    = ["Welcome to IP Insights!"; msg_invalid_name]
  ∧ existsb is_storage_call
      (trace (snd (run_all empty_name_world empty_name_config))) = true
  ∧ existsb is_training_submission
      (trace (snd (run_all empty_name_world empty_name_config))) = true
  ∧ fst (run_all empty_name_world empty_name_config)
    = Halted 8 (ClientError "ValidationException").
Proof. vm_compute. repeat split. Qed.

(** ** What the serializer writes, a CSV reader reads back *)

Lemma append_cons (c : Ascii.ascii) (s t : string) :
  String c s +:+ t = String c (s +:+ t).
Proof. reflexivity. Qed.

Lemma append_nil_r (s : string) : s +:+ EmptyString = s.
Proof.
  induction s as [|c s IH]; [reflexivity|]. by rewrite append_cons, IH.
Qed.

Lemma append_assoc (s t u : string) : (s +:+ t) +:+ u = s +:+ (t +:+ u).
Proof.
  induction s as [|c s IH]; [reflexivity|]. by rewrite !append_cons, IH.
Qed.

Lemma special_false (c : Ascii.ascii) :
  special c = false →
  Ascii.eqb c ","%char = false ∧ Ascii.eqb c quotechar = false
  ∧ Ascii.eqb c "010"%char = false.
Proof.
  unfold special. intros H.
  repeat (apply orb_false_elim in H as [H ?]). auto.
Qed.

Lemma csv_read_end (st : ReaderState) (field : string) (record : list string)
    (tail : string) :
  st ≠ InQuoted → separator_next tail = true →
  csv_read st field record tail = finish_field field record tail.
Proof.
  intros Hst Htail. destruct tail as [|c rest]; [reflexivity|].
  cbn [separator_next] in Htail. cbn [csv_read finish_field].
  assert (Ascii.eqb c quotechar = false) as ->.
  { apply orb_true_iff in Htail as [H|H]; apply Ascii.eqb_eq in H; by subst. }
  destruct (Ascii.eqb c ","%char) eqn:Hc.
  - by destruct st.
  - cbn [orb] in Htail. rewrite Htail. by destruct st.
Qed.

(** A field without special characters is read as it stands. *)
Lemma csv_read_plain (f : string) :
  has_special f = false →
  ∀ st acc record tail,
    st = FieldStart ∨ st = InUnquoted → separator_next tail = true →
    csv_read st acc record (f +:+ tail) = finish_field (acc +:+ f) record tail.
Proof.
  induction f as [|c f IH]; intros Hf st acc record tail Hst Htail.
  - rewrite append_nil_r. apply csv_read_end; [|done].
    destruct Hst; by subst.
  - cbn [has_special] in Hf. apply orb_false_elim in Hf as [Hc Hf].
    apply special_false in Hc as (Hcomma & Hquote & Hlf).
    rewrite append_cons. cbn [csv_read]. rewrite Hcomma, Hquote, Hlf.
    replace (acc +:+ String c f) with (push acc c +:+ f)
      by (unfold push; by rewrite append_assoc).
    destruct Hst; subst; apply IH; auto.
Qed.

(** Inside quotes, the doubled quotes are read back as single ones up to
    the closing quote. *)
Lemma csv_read_quoted (f : string) :
  ∀ acc record tail,
    separator_next tail = true →
    csv_read InQuoted acc record (double_quotes f +:+ String quotechar tail)
    = finish_field (acc +:+ f) record tail.
Proof.
  induction f as [|c f IH]; intros acc record tail Htail.
  - rewrite append_nil_r. cbn [double_quotes]. change (EmptyString +:+ ?x) with x.
    cbn [csv_read]. rewrite Ascii.eqb_refl. by apply csv_read_end.
  - replace (acc +:+ String c f) with (push acc c +:+ f)
      by (unfold push; by rewrite append_assoc).
    cbn [double_quotes]. destruct (Ascii.eqb c quotechar) eqn:Hc.
    + rewrite !append_cons. cbn [csv_read]. rewrite Hc. by apply IH.
    + rewrite append_cons. cbn [csv_read]. rewrite Hc. by apply IH.
Qed.

Lemma csv_read_field (f : string) (record : list string) (tail : string) :
  separator_next tail = true →
  csv_read FieldStart EmptyString record (csv_field f +:+ tail)
  = finish_field f record tail.
Proof.
  intros Htail. unfold csv_field. destruct (has_special f) eqn:Hf.
  - rewrite append_cons, append_assoc, append_cons.
    change (EmptyString +:+ tail) with tail.
    cbn [csv_read]. rewrite Ascii.eqb_refl.
    by rewrite csv_read_quoted.
  - by rewrite csv_read_plain; auto.
Qed.

Lemma csv_read_row (r : TupleRecord) (tail : string) :
  separator_next tail = true →
  csv_read FieldStart EmptyString [] (serialize_row r +:+ tail)
  = finish_field (ipAddress r) [principalId r] tail.
Proof.
  intros Htail. unfold serialize_row.
  rewrite !append_assoc. rewrite csv_read_field by reflexivity.
  rewrite append_cons. cbn [finish_field]. 
  change (EmptyString +:+ ?x) with x.
  by rewrite csv_read_field.
Qed.

(** The records a reader finds in the serializer's text are the rows, each
    once, in the order given. *)
Lemma csv_round_trip (rows : list TupleRecord) :
  rows ≠ [] →
  csv_records (String.concat newline (map serialize_row rows)) = map fields rows.
Proof.
  unfold csv_records.
  induction rows as [|r rows IH]; [done|]. intros _.
  destruct rows as [|r' rows].
  - cbn [map String.concat].
    rewrite <- (append_nil_r (serialize_row r)). by rewrite csv_read_row.
  - change (String.concat newline (map serialize_row (r :: r' :: rows)))
      with (serialize_row r +:+ newline
            +:+ String.concat newline (map serialize_row (r' :: rows))).
    unfold newline at 1. rewrite append_cons.
    change (EmptyString +:+ ?x) with x.
    rewrite csv_read_row by reflexivity.
    cbn [finish_field]. rewrite IH by done. reflexivity.
Qed.

(** ** One prediction call *)

Lemma sample_endpoint_scores (head : string → result unit) (submit : result string)
    (objects : string → result csv_object) (st : JobStatus) :
  scores_each_record (workshop head submit objects st) sample_score.
Proof.
  intros req text Hbody. cbn [invoke_endpoint workshop].
  unfold sample_endpoint. by rewrite Hbody.
Qed.

Lemma mapM_score_of (xs : list Q) :
  mapM score_of (map (fun x => JObject [("dot_product", JNumber x)]) xs)
  = Some (map mkScore xs).
Proof.
  induction xs as [|x xs IH]; [reflexivity|].
  cbn [map mapM]. rewrite IH. reflexivity.
Qed.

Lemma predictions_of_doc (xs : list Q) :
  predictions_of (predictions_doc xs) = Some (map mkScore xs).
Proof. apply mapM_score_of. Qed.

(** C5 (amended).  For every non-empty ordered sequence of N rows, a
    predictor with the CSV serializer and the JSON deserializer, and an
    endpoint that scores each CSV record of a request in order: predict
    sends exactly one request, whose body is the N serialized rows in input
    order, and returns exactly N ScoreResult entries, entry i being the
    score of row i.  (An empty sequence is refused by the serializer before
    any request is sent.) *)
Theorem predict_round_trip (W : World) (score : list string → Q) (s : NB)
    (p : Predictor) (rows : list TupleRecord) :
  scores_each_record W score →
  predictor (globals s) = Some p →
  serializer p = Some csv_serializer →
  deserializer p = Some json_deserializer →
  rows ≠ [] →
  ∃ (req : InvokeRequest) (doc : json) (results : list ScoreResult),
    predict W rows s
    = (Returns (Deserialized doc),
       mkNB (globals s) (stdout s) (displayed s)
         (trace s ++ [EvInvokeEndpoint req]))
    ∧ RequestBody req
      = BodyText (String.concat newline (map serialize_row rows))
    ∧ scores (Deserialized doc) = Some results
    ∧ List.length results = List.length rows
    ∧ ∀ (i : nat) (row : TupleRecord),
        rows !! i = Some row →
        results !! i = Some (mkScore (score (fields row))).
Proof.
  intros Hendpoint Hp Hser Hdes Hrows.
  set (text := String.concat newline (map serialize_row rows)).
  set (req := mkInvokeRequest (endpoint p) (BodyText text) (content_type p) (accept p)).
  exists req, (predictions_doc (map score (csv_records text))),
    (map (fun row => mkScore (score (fields row))) rows).
  assert (csv_records text = map fields rows) as Hread
    by (by apply csv_round_trip).
  split; [|split; [|split; [|split]]].
  - unfold predict. exec. rewrite Hp. exec. rewrite Hser. exec.
    destruct rows as [|r rows]; [done|]. cbn [csv_serialize]. exec.
    fold text. fold req.
    rewrite (Hendpoint req text eq_refl). rewrite Hdes. exec.
    reflexivity.
  - reflexivity.
  - cbn [scores]. rewrite predictions_of_doc, Hread, !map_map. reflexivity.
  - by rewrite length_map.
  - intros i row Hi. by rewrite list_lookup_fmap, Hi.
Qed.

Lemma predict_round_trip_witness :
  ∃ (req : InvokeRequest) (doc : json) (results : list ScoreResult),
    predict headed_world [mkTuple "user-1" "203.0.113.44"] serving
    = (Returns (Deserialized doc),
       mkNB (globals serving) (stdout serving) (displayed serving)
         (trace serving ++ [EvInvokeEndpoint req]))
    ∧ RequestBody req
      = BodyText (String.concat newline
                    (map serialize_row [mkTuple "user-1" "203.0.113.44"]))
    ∧ scores (Deserialized doc) = Some results
    ∧ List.length results = List.length [mkTuple "user-1" "203.0.113.44"]
    ∧ ∀ (i : nat) (row : TupleRecord),
        [mkTuple "user-1" "203.0.113.44"] !! i = Some row →
        results !! i = Some (mkScore (sample_score (fields row))).
Proof.
  apply (predict_round_trip headed_world sample_score serving
           (codec_predictor "ipinsights-job-1")
           [mkTuple "user-1" "203.0.113.44"]).
  - apply sample_endpoint_scores.
  - reflexivity.
  - reflexivity.
  - reflexivity.
  - discriminate.
Defined.

(** C5 as stated fails for N = 0: with an endpoint that scores every record,
    predict on no rows does not return an empty list of scores; the
    serializer raises and nothing is sent. *)
Lemma empty_batch_is_refused :
  scores_each_record headed_world sample_score
  ∧ predict headed_world [] serving
    = (Raises (ValueError "Cannot serialize empty array"), serving).
Proof.
  split; [apply sample_endpoint_scores | reflexivity].
Qed.

(** ** Cells 16 and 18 *)

Lemma length_inferred_values (W : World) (rows : list TupleRecord) :
  List.length (inferred_values W rows) = List.length rows.
Proof. unfold inferred_values. apply length_imap. Qed.

Lemma lookup_inferred_values (W : World) (rows : list TupleRecord) (i : nat)
    (r : TupleRecord) :
  rows !! i = Some r →
  inferred_values W rows !! i
  = Some (mkTuple (printed_cell W rows i principalId r)
            (printed_cell W rows i ipAddress r)).
Proof.
  intros Hi. unfold inferred_values. rewrite list_lookup_imap, Hi. reflexivity.
Qed.

(** A file of plain-text cells is handed on as it is. *)
Lemma inferred_values_text (W : World) (rows : list TupleRecord) :
  forallb (fun r => certainly_text (principalId r) && certainly_text (ipAddress r))
    rows = true →
  inferred_values W rows = rows.
Proof.
  intros Htext. apply list_eq. intros i.
  destruct (rows !! i) as [r|] eqn:Hi.
  - rewrite (lookup_inferred_values _ _ _ _ Hi).
    rewrite forallb_forall in Htext.
    assert (In r rows) as Hin.
    { apply list_elem_of_In. by eapply list_elem_of_lookup_2. }
    apply Htext, andb_true_iff in Hin as [H1 H2].
    unfold printed_cell. rewrite H1, H2. by destruct r.
  - apply lookup_ge_None. rewrite length_inferred_values.
    by apply lookup_ge_None.
Qed.

(** C10 (amended).  In both inference cells the object is read with blank
    lines skipped, its first record is taken as the column header and the
    other records, typed by pandas, are the batch: an object with N non-blank
    lines binds a frame of N-1 rows and, when N is at least 2, sends them to
    the endpoint in one request whose body reads back as these N-1 rows in
    file order; with one non-blank line the batch is empty, nothing is sent
    and the serializer's refusal ends the cell.  Row i of the batch comes from
    record i+1 of the file, cells of plain text unchanged. *)
Theorem first_record_is_the_header (W : World) (s : NB) (b p k name : string)
    (obj16 obj18 : csv_object) (h16 h18 : TupleRecord)
    (rows16 rows18 : list TupleRecord) :
  bucket (globals s) = Some b →
  prefix (globals s) = Some p →
  train_key (globals s) = Some k →
  predictor (globals s) = Some (codec_predictor name) →
  get_object W (s3_uri b k) = Returns obj16 →
  records_of obj16 = h16 :: rows16 →
  get_object W (s3_uri b (os_path_join p ["infer"; "guardduty_tuples.csv"]))
  = Returns obj18 →
  records_of obj18 = h18 :: rows18 →
  (inference_data (globals (snd (cell_16 W s)))
   = Some (mkDataFrame (column_labels h16) (inferred_values W rows16))
   ∧ List.length (inferred_values W rows16)
     = (List.length (records_of obj16) - 1)%nat
   ∧ (rows16 = [] →
      fst (cell_16 W s) = Raises (ValueError "Cannot serialize empty array")
      ∧ trace (snd (cell_16 W s)) = trace s ++ [EvGetObject (s3_uri b k)])
   ∧ (rows16 ≠ [] →
      ∃ text,
        csv_records text = map fields (inferred_values W rows16)
        ∧ trace (snd (cell_16 W s))
          = trace s
            ++ [EvGetObject (s3_uri b k);
                EvInvokeEndpoint
                  (mkInvokeRequest name (BodyText text) (Some "text/csv")
                     (Some "application/json"))]))
  ∧ (inference_data (globals (snd (cell_18 W s)))
     = Some (mkDataFrame (column_labels h18) (inferred_values W rows18))
     ∧ List.length (inferred_values W rows18)
       = (List.length (records_of obj18) - 1)%nat
     ∧ (rows18 = [] →
        fst (cell_18 W s) = Raises (ValueError "Cannot serialize empty array")
        ∧ trace (snd (cell_18 W s))
          = trace s
            ++ [EvGetObject
                  (s3_uri b (os_path_join p ["infer"; "guardduty_tuples.csv"]))])
     ∧ (rows18 ≠ [] →
        ∃ text,
          csv_records text = map fields (inferred_values W rows18)
          ∧ trace (snd (cell_18 W s))
            = trace s
              ++ [EvGetObject
                    (s3_uri b (os_path_join p ["infer"; "guardduty_tuples.csv"]));
                  EvInvokeEndpoint
                    (mkInvokeRequest name (BodyText text) (Some "text/csv")
                       (Some "application/json"))]))
  ∧ (∀ (rows : list TupleRecord) (i : nat) (r : TupleRecord),
       rows !! i = Some r →
       ∃ r', inferred_values W rows !! i = Some r'
             ∧ (certainly_text (principalId r) = true → principalId r' = principalId r)
             ∧ (certainly_text (ipAddress r) = true → ipAddress r' = ipAddress r)).
Proof.
  intros Hb Hp Hk Hpred H16 Hrec16 H18 Hrec18.
  unfold codec_predictor in Hpred.
  assert (∀ rows : list TupleRecord, rows ≠ [] → inferred_values W rows ≠ [])
    as Hrows.
  { intros rows Hne Hnil. apply Hne, length_zero_iff_nil.
    by rewrite <- (length_inferred_values W), Hnil. }
  split; [|split].
  - split; [|split; [|split]].
    + unfold cell_16, read_csv, predict. exec. rewrite Hb. exec. rewrite Hk. exec.
      rewrite H16. exec. rewrite Hrec16. exec. rewrite Hpred. exec.
      destruct (csv_serialize _) as [text|e]; exec; [|reflexivity].
      destruct (invoke_endpoint W _) as [[doc|other]|e]; reflexivity.
    + rewrite length_inferred_values, Hrec16. cbn [List.length]. lia.
    + intros ->.
      unfold cell_16, read_csv, predict. exec. rewrite Hb. exec. rewrite Hk. exec.
      rewrite H16. exec. rewrite Hrec16. exec. rewrite Hpred. by split.
    + intros Hne%Hrows.
      unfold cell_16, read_csv, predict. exec. rewrite Hb. exec. rewrite Hk. exec.
      rewrite H16. exec. rewrite Hrec16. exec. rewrite Hpred. exec.
      destruct (inferred_values W rows16) as [|r rows] eqn:Hbatch; [done|].
      cbn [csv_serialize]. exec.
      exists (String.concat newline (map serialize_row (r :: rows))).
      split; [by apply csv_round_trip|].
      destruct (invoke_endpoint W _) as [[doc|other]|e]; exec;
        by rewrite <- app_assoc.
  - split; [|split; [|split]].
    + unfold cell_18, read_csv, predict. exec. rewrite Hp. exec. rewrite Hb. exec.
      rewrite H18. exec. rewrite Hrec18. exec. rewrite Hpred. exec.
      destruct (csv_serialize _) as [text|e]; exec; [|reflexivity].
      destruct (invoke_endpoint W _) as [[doc|other]|e]; reflexivity.
    + rewrite length_inferred_values, Hrec18. cbn [List.length]. lia.
    + intros ->.
      unfold cell_18, read_csv, predict. exec. rewrite Hp. exec. rewrite Hb. exec.
      rewrite H18. exec. rewrite Hrec18. exec. rewrite Hpred. by split.
    + intros Hne%Hrows.
      unfold cell_18, read_csv, predict. exec. rewrite Hp. exec. rewrite Hb. exec.
      rewrite H18. exec. rewrite Hrec18. exec. rewrite Hpred. exec.
      destruct (inferred_values W rows18) as [|r rows] eqn:Hbatch; [done|].
      cbn [csv_serialize]. exec.
      exists (String.concat newline (map serialize_row (r :: rows))).
      split; [by apply csv_round_trip|].
      destruct (invoke_endpoint W _) as [[doc|other]|e]; exec;
        by rewrite <- app_assoc.
  - intros rows i r Hi. eexists. split; [by apply lookup_inferred_values|].
    unfold printed_cell. cbn [principalId ipAddress].
    split; intros ->; reflexivity.
Qed.

(** In the scenario with a header line in the findings object, cell 16 sends
    the second record of the training object and cell 18 the row of the
    findings object, each as the only record of its request. *)
Lemma first_record_is_the_header_witness :
  ∃ text16 text18,
    csv_records text16 = [["user-2"; "10.0.0.9"]]
    ∧ trace (snd (cell_16 headed_world serving))
      = [EvGetObject "s3://sec405-tuplesbucket-ABC123/train/cloudtrail_tuples.csv";
         EvInvokeEndpoint
           (mkInvokeRequest "ipinsights-job-1" (BodyText text16) (Some "text/csv")
              (Some "application/json"))]
    ∧ csv_records text18 = [["user-1"; "203.0.113.44"]]
    ∧ trace (snd (cell_18 headed_world serving))
      = [EvGetObject "s3://sec405-tuplesbucket-ABC123/infer/guardduty_tuples.csv";
         EvInvokeEndpoint
           (mkInvokeRequest "ipinsights-job-1" (BodyText text18) (Some "text/csv")
              (Some "application/json"))].
Proof.
  destruct (first_record_is_the_header headed_world serving
              "sec405-tuplesbucket-ABC123" EmptyString "train/cloudtrail_tuples.csv"
              "ipinsights-job-1"
              [RecordLine (mkTuple "user-1" "10.0.0.5");
               RecordLine (mkTuple "user-2" "10.0.0.9")]
              headed_finding
              (mkTuple "user-1" "10.0.0.5") (mkTuple "principal" "ip")
              [mkTuple "user-2" "10.0.0.9"] [mkTuple "user-1" "203.0.113.44"]
              eq_refl eq_refl eq_refl eq_refl eq_refl eq_refl eq_refl eq_refl)
    as [(_ & _ & _ & H16) [(_ & _ & _ & H18) _]].
  destruct (H16 ltac:(discriminate)) as (text16 & Hread16 & Htrace16).
  destruct (H18 ltac:(discriminate)) as (text18 & Hread18 & Htrace18).
  exists text16, text18.
  exact (conj Hread16 (conj Htrace16 (conj Hread18 Htrace18))).
Defined.

(** C10 as stated fails on an object with a blank line: the findings object
    below has three lines, and the batch cell 18 sends has one row, not
    two. *)
Lemma blank_line_is_not_a_row :
  get_object gapped_world
    "s3://sec405-tuplesbucket-ABC123/infer/guardduty_tuples.csv"
  = Returns gapped_finding
  ∧ List.length gapped_finding = 3%nat
  ∧ fst (cell_18 gapped_world serving) = Returns tt
  ∧ (values <$> inference_data (globals (snd (cell_18 gapped_world serving))))
    = Some [mkTuple "user-1" "203.0.113.44"]
  ∧ trace (snd (cell_18 gapped_world serving))
    = [EvGetObject "s3://sec405-tuplesbucket-ABC123/infer/guardduty_tuples.csv";
       EvInvokeEndpoint
         (mkInvokeRequest "ipinsights-job-1" (BodyText "user-1,203.0.113.44")
            (Some "text/csv") (Some "application/json"))].
Proof. vm_compute. repeat split. Qed.

(** ** Whole runs *)

Ltac split_in :=
  cbn [In]; intros Hin;
  repeat match goal with
         | H : _ ∨ _ |- _ => destruct H as [H|H]
         | H : False |- _ => destruct H
         end.

(** C7.  With the codecs of cell 14 a call of predict on any rows sends one
    request, with content type text/csv, accept application/json and the CSV
    text of exactly these rows as body (a CSV reader gets the rows back from
    it), and hands back the JSON document of the answer, or raises when the
    answer is not JSON.  In every run, whatever the world answers, each
    request sent to the endpoint comes right after the read of an object and
    carries these two headers and the CSV text of that object's frame; each
    result a cell shows is the decoded JSON answer to one of these requests;
    and a run that finishes has sent two requests and shown the two decoded
    answers, in order. *)
Theorem inference_codecs (W : World) (cfg : Config) :
  (∀ (s : NB) (p : Predictor) (rows : list TupleRecord),
     predictor (globals s) = Some p →
     rows ≠ [] →
     let text := String.concat newline (map serialize_row rows) in
     let req :=
       mkInvokeRequest (endpoint p) (BodyText text) (Some "text/csv")
         (Some "application/json") in
     csv_records text = map fields rows
     ∧ trace (snd (predict W rows (snd (cell_14 s))))
       = trace s ++ [EvInvokeEndpoint req]
     ∧ fst (predict W rows (snd (cell_14 s)))
       = match invoke_endpoint W req with
         | Returns (JsonText doc) => Returns (Deserialized doc)
         | Returns (OtherText _) => Raises (ValueError "JSONDecodeError")
         | Raises e => Raises e
         end)
  ∧ (∀ req, In (EvInvokeEndpoint req) (trace (snd (run_all W cfg))) →
       ContentType req = Some "text/csv"
       ∧ Accept req = Some "application/json"
       ∧ ∃ pre post uri obj header rows text,
           trace (snd (run_all W cfg))
           = pre ++ EvGetObject uri :: EvInvokeEndpoint req :: post
           ∧ get_object W uri = Returns obj
           ∧ records_of obj = header :: rows
           ∧ csv_serialize (inferred_values W rows) = Returns text
           ∧ RequestBody req = BodyText text
           ∧ csv_records text = map fields (inferred_values W rows))
  ∧ (∀ v, In v (displayed (snd (run_all W cfg))) →
       ∃ req doc,
         In (EvInvokeEndpoint req) (trace (snd (run_all W cfg)))
         ∧ invoke_endpoint W req = Returns (JsonText doc)
         ∧ v = Deserialized doc)
  ∧ (fst (run_all W cfg) = Finished →
       ∃ req16 req18 doc16 doc18,
         requests_sent (trace (snd (run_all W cfg))) = [req16; req18]
         ∧ invoke_endpoint W req16 = Returns (JsonText doc16)
         ∧ invoke_endpoint W req18 = Returns (JsonText doc18)
         ∧ displayed (snd (run_all W cfg))
           = [Deserialized doc16; Deserialized doc18]).
Proof.
  split; [|split; [|split]].
  - intros s p rows Hp Hrows text req.
    split; [by apply csv_round_trip|].
    subst req text. unfold cell_14, predict. exec. rewrite Hp. exec.
    destruct rows as [|r rows]; [done|]. cbn [csv_serialize]. exec.
    destruct (invoke_endpoint W _) as [[doc|other]|e]; exec; by split.
  - intros req. every_run.
    all: split_in; try discriminate.
    all: repeat match goal with
           | H : EvInvokeEndpoint ?a = EvInvokeEndpoint ?b |- _ =>
               assert (b = a) as -> by (clear -H; congruence); clear H
           end.
    all: cbn [ContentType Accept RequestBody];
      (split; [reflexivity|split; [reflexivity|]]).
    all: first
           [ refine (ex_intro _ [_; _; _; _; _] _); eexists _, _, _, _, _, _;
             split; [reflexivity|]
           | refine (ex_intro _ [_; _; _; _; _; _; _] _); eexists _, _, _, _, _, _;
             split; [reflexivity|] ].
    all: split; [eassumption|split; [eassumption|]].
    all: match goal with
         | H : inferred_values ?w ?l = _ |- context [inferred_values ?w ?l] =>
             rewrite H
         end.
    all: split; [reflexivity|split; [reflexivity|]].
    all: by apply csv_round_trip.
  - intros v. every_run.
    all: split_in; subst.
    all: refine (ex_intro _ _ (ex_intro _ _ (conj _ (conj _ _))));
      [ | | reflexivity]; [ | eassumption]; auto 12.
  - every_run. all: intros Hfin; try discriminate.
    all: eexists _, _, _, _; split; [reflexivity|].
    all: split; [eassumption|split; [eassumption|reflexivity]].
Qed.

(** ** Hyperparameters *)

Lemma foldl_insert_other (kwargs : list (string * string))
    (d : gmap string string) (k : string) :
  k ∉ map fst kwargs →
  foldl (fun d kv => <[fst kv := snd kv]> d) d kwargs !! k = d !! k.
Proof.
  revert d. induction kwargs as [|[k' v'] kwargs IH]; intros d Hk; [done|].
  cbn [foldl map fst snd] in *. apply not_elem_of_cons in Hk as [Hne Hk].
  rewrite IH by done. by rewrite lookup_insert_ne.
Qed.

Lemma foldl_insert_lookup (kwargs : list (string * string))
    (d : gmap string string) (k v : string) :
  NoDup (map fst kwargs) → In (k, v) kwargs →
  foldl (fun d kv => <[fst kv := snd kv]> d) d kwargs !! k = Some v.
Proof.
  revert d. induction kwargs as [|[k' v'] kwargs IH]; intros d Hnd Hin; [done|].
  cbn [foldl map fst snd] in *. apply NoDup_cons in Hnd as [Hfresh Hnd].
  destruct Hin as [[= -> ->]|Hin].
  - rewrite foldl_insert_other by done. apply lookup_insert_eq.
  - by apply IH.
Qed.

Lemma notebook_dict :
  foldl (fun d kv => <[fst kv := snd kv]> d) (∅ : gmap string string)
    notebook_hyperparameters
  = list_to_map notebook_hyperparameters.
Proof. vm_compute. reflexivity. Qed.

Lemma notebook_keys :
  dom (list_to_map notebook_hyperparameters : gmap string string)
  = {[ "num_entity_vectors"; "random_negative_sampling_rate"; "vector_dim";
       "mini_batch_size"; "epochs"; "learning_rate" ]}.
Proof. vm_compute. reflexivity. Qed.

(** C6.  Whatever keywords [set_hyperparameters] is given and whatever the
    estimator held before, the [fit] that follows always submits a training
    request (nothing can fail before the submission, so no value is ever
    turned down on the client), exactly one, and that request carries every
    keyword with the string it was given and the estimator's other entries
    as they were.  In every run, either the run stopped in cell 5 and no
    training request was made, or exactly one training request was
    submitted, and its hyperparameters are the notebook's six
    string-to-string pairs, each value as written, and nothing else. *)
Theorem hyperparameters_passed_verbatim (W : World) (cfg : Config) :
  (∀ (s : NB) (e : Estimator) (kwargs : list (string * string))
     (inputs : list (string * s3_input)),
     ∃ req rest,
       trace (snd (fit W inputs
                     (snd (assign (set_ip_insights (set_hyperparameters kwargs e)) s))))
       = trace s ++ EvCreateTrainingJob req :: rest
       ∧ training_requests rest = []
       ∧ req_input_config req = inputs
       ∧ (NoDup (map fst kwargs) →
          ∀ k v, In (k, v) kwargs → req_hyperparameters req !! k = Some v)
       ∧ (∀ k, k ∉ map fst kwargs →
            req_hyperparameters req !! k = hyperparam_dict e !! k))
  ∧ ((∃ e, fst (run_all W cfg) = Halted 5 e
           ∧ training_requests (trace (snd (run_all W cfg))) = [])
     ∨ ∃ req,
         training_requests (trace (snd (run_all W cfg))) = [req]
         ∧ req_hyperparameters req = list_to_map notebook_hyperparameters
         ∧ dom (req_hyperparameters req)
           = {[ "num_entity_vectors"; "random_negative_sampling_rate";
                "vector_dim"; "mini_batch_size"; "epochs"; "learning_rate" ]}
         ∧ (∀ k v, In (k, v) notebook_hyperparameters →
              req_hyperparameters req !! k = Some v)).
Proof.
  split.
  - intros s e kwargs inputs.
    exists (mkTrainingRequest (image_name e) (role e) (train_instance_count e)
              (train_instance_type e) (output_path e) inputs
              (foldl (fun d kv => <[fst kv := snd kv]> d) (hyperparam_dict e) kwargs)).
    assert (∀ rest : list Event,
              training_requests rest = [] →
              training_requests rest = []
              ∧ inputs = inputs
              ∧ (NoDup (map fst kwargs) →
                 ∀ k v, In (k, v) kwargs →
                   foldl (fun d kv => <[fst kv := snd kv]> d) (hyperparam_dict e) kwargs
                   !! k = Some v)
              ∧ (∀ k, k ∉ map fst kwargs →
                   foldl (fun d kv => <[fst kv := snd kv]> d) (hyperparam_dict e) kwargs
                   !! k = hyperparam_dict e !! k)) as Hrest.
    { intros rest Hnone. split; [exact Hnone|split; [reflexivity|split]].
      - intros Hnd k v Hin. by apply foldl_insert_lookup.
      - intros k Hk. by apply foldl_insert_other. }
    unfold fit. exec.
    destruct (create_training_job W _) as [job|err]; exec.
    + exists [EvWaitTrainingJob job].
      split; [|by apply Hrest].
      destruct (check_job_status W job (wait_training_job W job)) as [[]|err]; exec;
        by rewrite <- app_assoc.
    + exists []. split; [reflexivity|by apply Hrest].
  - assert (∀ req : TrainingRequest,
              req_hyperparameters req
              = foldl (fun d kv => <[fst kv := snd kv]> d) ∅ notebook_hyperparameters →
              req_hyperparameters req = list_to_map notebook_hyperparameters
              ∧ dom (req_hyperparameters req)
                = {[ "num_entity_vectors"; "random_negative_sampling_rate";
                     "vector_dim"; "mini_batch_size"; "epochs"; "learning_rate" ]}
              ∧ (∀ k v, In (k, v) notebook_hyperparameters →
                   req_hyperparameters req !! k = Some v)) as Hdict.
    { intros req Hreq. split; [|split].
      - by rewrite Hreq, notebook_dict.
      - by rewrite Hreq, notebook_dict, notebook_keys.
      - intros k v Hin. rewrite Hreq. apply foldl_insert_lookup; [|done].
        apply NoDup_ListNoDup. vm_compute.
        repeat (constructor; [cbn [In]; intuition discriminate|]). constructor. }
    every_run.
    all: first
           [ left; eexists; split; reflexivity
           | right; eexists; split; [reflexivity|]; apply Hdict; reflexivity ].
Qed.

(** ** Training before deployment *)

(** C8 (amended).  The notebook has no status check of its own; what stops
    it is the check the SDK makes at the end of [fit].  For the job a run
    has started: when the job ends Failed and the SDK's check raises for
    it, the run halts in cell 8 with that error, the estimator still
    naming the job, after the role lookup, the probe, the submission and
    the wait, and no endpoint is ever requested; when the SDK's check
    returns for the state the job ended in (as it does for Completed and
    for Stopped), the run goes on and cell 11 requests the endpoint for that
    job; and every endpoint a run requests is for its job, after the check
    returned. *)
Theorem failed_training_blocks_deployment (W : World) (cfg : Config)
    (req : TrainingRequest) (job : string) :
  In (EvCreateTrainingJob req) (trace (snd (run_all W cfg))) →
  create_training_job W req = Returns job →
  (∀ e, wait_training_job W job = Failed →
        check_job_status W job Failed = Raises e →
        fst (run_all W cfg) = Halted 8 e
        ∧ (ip_insights (globals (snd (run_all W cfg))) ≫= latest_training_job)
          = Some job
        ∧ map kind (trace (snd (run_all W cfg)))
          = [RoleLookup; BucketProbe; TrainingSubmission; TrainingWait]
        ∧ existsb is_deployment (trace (snd (run_all W cfg))) = false)
  ∧ (check_job_status W job (wait_training_job W job) = Returns tt →
     In (EvCreateEndpoint (mkDeployRequest job 1 "ml.m4.xlarge"))
       (trace (snd (run_all W cfg))))
  ∧ (∀ dreq, In (EvCreateEndpoint dreq) (trace (snd (run_all W cfg))) →
       dep_training_job dreq = job
       ∧ check_job_status W job (wait_training_job W job) = Returns tt).
Proof.
  every_run.
  all: cbn [In]; intros Hin Hjob.
  all: repeat match goal with
         | H : _ ∨ _ |- _ => destruct H as [H|H]
         | H : False |- _ => destruct H
         | H : EvCreateTrainingJob ?a = EvCreateTrainingJob ?b |- _ =>
             assert (b = a) as -> by (clear -H; congruence); clear H
         end; try discriminate.
  all: try congruence.
  all: match goal with
       | H1 : create_training_job ?w ?r = Returns ?j,
         H2 : create_training_job ?w ?r = Returns ?j' |- _ =>
           assert (j = j') by congruence; subst
       end.
  all: split;
    [ intros exn Hst Hcheck; rewrite Hst in *;
      first [ clash
            | match goal with
              | H : check_job_status ?w ?j Failed = Raises ?e' |- _ =>
                  assert (e' = exn) as -> by congruence
              end;
              split; [reflexivity|split; [reflexivity|split; reflexivity]] ]
    | split;
      [ intros Hret; first [clash | cbn [In]; solve [auto 12]]
      | intros dreq; cbn [In]; intros Hdep;
        repeat match goal with
               | H : _ ∨ _ |- _ => destruct H as [H|H]
               | H : False |- _ => destruct H
               | H : EvCreateEndpoint ?a = EvCreateEndpoint ?b |- _ =>
                   assert (b = a) as -> by (clear -H; congruence); clear H
               end; try discriminate;
        (split; [reflexivity|assumption]) ] ].
Qed.

Lemma failed_training_blocks_deployment_witness :
  wait_training_job failed_job_world "ipinsights-job-1" = Failed
  ∧ fst (run_all failed_job_world scenario_config)
    = Halted 8
        (ValueError
           "Error for Training job ipinsights-job-1: Failed. Reason: AlgorithmError")
  ∧ (ip_insights (globals (snd (run_all failed_job_world scenario_config)))
     ≫= latest_training_job) = Some "ipinsights-job-1"
  ∧ map kind (trace (snd (run_all failed_job_world scenario_config)))
    = [RoleLookup; BucketProbe; TrainingSubmission; TrainingWait]
  ∧ existsb is_deployment (trace (snd (run_all failed_job_world scenario_config)))
    = false.
Proof.
  split; [reflexivity|].
  refine (proj1 (failed_training_blocks_deployment failed_job_world
                   scenario_config scenario_request "ipinsights-job-1" _ _)
            _ eq_refl eq_refl).
  - vm_compute. right. right. left. reflexivity.
  - reflexivity.
Defined.

(** C8 as stated fails for Stopped: the SDK's check lets a stopped job
    through, so the run goes on, cell 11 creates the endpoint, and the run
    finishes with all nine remote calls made. *)
Lemma stopped_job_is_deployed :
  wait_training_job stopped_job_world "ipinsights-job-1" = Stopped
  ∧ check_job_status stopped_job_world "ipinsights-job-1" Stopped = Returns tt
  ∧ fst (run_all stopped_job_world scenario_config) = Finished
  ∧ In (EvCreateEndpoint (mkDeployRequest "ipinsights-job-1" 1 "ml.m4.xlarge"))
      (trace (snd (run_all stopped_job_world scenario_config)))
  ∧ map kind (trace (snd (run_all stopped_job_world scenario_config))) = full_run.
Proof. vm_compute. intuition. Qed.

(** ** The scenario of the specification *)

Lemma scenario_train_uri :
  s3_uri "sec405-tuplesbucket-ABC123"
    (os_path_join EmptyString ["train"; "cloudtrail_tuples.csv"])
  = "s3://sec405-tuplesbucket-ABC123/train/cloudtrail_tuples.csv".
Proof. reflexivity. Qed.

Lemma scenario_infer_uri :
  s3_uri "sec405-tuplesbucket-ABC123"
    (os_path_join EmptyString ["infer"; "guardduty_tuples.csv"])
  = "s3://sec405-tuplesbucket-ABC123/infer/guardduty_tuples.csv".
Proof. reflexivity. Qed.

(** C3 (amended).  In the scenario (bucket sec405-tuplesbucket-ABC123, empty
    prefix, the two-line training object, training that completes, an
    endpoint that scores every record) with a findings object made of a
    header line followed by the one row user-1,203.0.113.44, the run
    finishes and the prediction on the findings object returns exactly one
    ScoreResult, the score of that row. *)
Theorem scenario_with_header_returns_one_score (W : World)
    (score : list string → Q) (header : TupleRecord) (r job name : string) :
  get_execution_role W = Returns r →
  head_bucket W "sec405-tuplesbucket-ABC123" = Returns tt →
  (∀ req, create_training_job W req = Returns job) →
  check_job_status W job (wait_training_job W job) = Returns tt →
  create_endpoint W (mkDeployRequest job 1 "ml.m4.xlarge") = Returns name →
  get_object W "s3://sec405-tuplesbucket-ABC123/train/cloudtrail_tuples.csv"
  = Returns [mkTuple "user-1" "10.0.0.5"; mkTuple "user-2" "10.0.0.9"] →
  get_object W "s3://sec405-tuplesbucket-ABC123/infer/guardduty_tuples.csv"
  = Returns [header; mkTuple "user-1" "203.0.113.44"] →
  scores_each_record W score →
  fst (run_all W scenario_config) = Finished
  ∧ ∃ on_training on_findings,
      displayed (snd (run_all W scenario_config)) = [on_training; on_findings]
      ∧ scores on_findings = Some [mkScore (score ["user-1"; "203.0.113.44"])].
Proof.
  intros Hrole Hhead Hjob Hdone Hep Htrain Hinfer Hendpoint.
  unfold run_all, code_cells, scenario_config, fresh, no_globals.
  enter_cell. enter_cell.
  enter_cell. rewrite Hrole. run_flat. rewrite Hhead. run_flat.
  enter_cell.
  enter_cell. rewrite Hjob. run_flat. rewrite Hdone. run_flat.
  enter_cell.
  enter_cell. rewrite Hep. run_flat.
  enter_cell. enter_cell.
  enter_cell. rewrite scenario_train_uri, Htrain.
  change (records_of [RecordLine ?a; RecordLine ?b]) with [a; b]. run_flat.
  rewrite inferred_values_text by reflexivity.
  cbn [csv_serialize]. run_flat.
  match goal with
  | |- context [invoke_endpoint W ?req] => rewrite (Hendpoint req _ eq_refl)
  end. run_flat.
  enter_cell. rewrite scenario_infer_uri, Hinfer.
  change (records_of [RecordLine ?a; RecordLine ?b]) with [a; b]. run_flat.
  rewrite inferred_values_text by reflexivity.
  cbn [csv_serialize]. run_flat.
  match goal with
  | |- context [invoke_endpoint W ?req] => rewrite (Hendpoint req _ eq_refl)
  end. run_flat.
  unfold run_cells. run_flat.
  split; [reflexivity|]. eexists _, _. split; [reflexivity|].
  cbn [scores]. rewrite predictions_of_doc. reflexivity.
Qed.

Lemma scenario_with_header_returns_one_score_witness :
  fst (run_all headed_world scenario_config) = Finished
  ∧ ∃ on_training on_findings,
      displayed (snd (run_all headed_world scenario_config))
      = [on_training; on_findings]
      ∧ scores on_findings
        = Some [mkScore (sample_score ["user-1"; "203.0.113.44"])].
Proof.
  apply (scenario_with_header_returns_one_score headed_world sample_score
           (mkTuple "principal" "ip")
           "arn:aws:iam::123456789012:role/workshop"
           "ipinsights-job-1" "ipinsights-job-1").
  - reflexivity.
  - reflexivity.
  - intros req. reflexivity.
  - reflexivity.
  - reflexivity.
  - vm_compute. reflexivity.
  - vm_compute. reflexivity.
  - apply sample_endpoint_scores.
Defined.

(** C3 as stated fails: with the findings object of the scenario, whose only
    line is the row itself, that line is taken as the header, the batch is
    empty, and the prediction on the findings object raises in cell 18
    instead of returning one ScoreResult; the only result shown is the one
    for the training object. *)
Lemma scenario_returns_no_score :
  get_object scenario_world
    "s3://sec405-tuplesbucket-ABC123/infer/guardduty_tuples.csv"
  = Returns [mkTuple "user-1" "203.0.113.44"]
  ∧ fst (run_all scenario_world scenario_config)
    = Halted 18 (ValueError "Cannot serialize empty array")
  ∧ inference_data (globals (snd (run_all scenario_world scenario_config)))
    = Some (mkDataFrame ("user-1", "203.0.113.44") [])
  ∧ List.length (displayed (snd (run_all scenario_world scenario_config))) = 1%nat
  ∧ List.length
      (filter (fun ev => is_inference ev = true)
         (trace (snd (run_all scenario_world scenario_config)))) = 1%nat.
Proof. vm_compute. repeat split. Qed.

(** * Further properties of the cells and of whole runs *)

(** ** Object keys *)

Lemma endswith_slash_app (p s : string) (c : Ascii.ascii) :
  endswith_slash (p +:+ String c s) = endswith_slash (String c s).
Proof.
  induction p as [|a p IH]; [reflexivity|].
  rewrite append_cons, <- IH.
  destruct (p +:+ String c s) eqn:Hp; [by destruct p|reflexivity].
Qed.

Lemma append_not_empty (p : string) (c : Ascii.ascii) (s : string) :
  String.eqb (p +:+ String c s) EmptyString = false.
Proof. by destruct p. Qed.

(** X1.  The keys cells 7 and 18 build with [os.path.join] are the prefix
    followed by train/cloudtrail_tuples.csv (infer/guardduty_tuples.csv),
    with a slash put between prefix and folder exactly when the prefix is
    not empty and does not already end in one: an empty prefix gives a key
    without leading slash, a prefix ending in a slash gives no doubled
    slash. *)
Theorem object_keys_shape (p : string) :
  os_path_join p ["train"; "cloudtrail_tuples.csv"]
  = p +:+ (if String.eqb p EmptyString || endswith_slash p then EmptyString else "/")
      +:+ "train/cloudtrail_tuples.csv"
  ∧ os_path_join p ["infer"; "guardduty_tuples.csv"]
    = p +:+ (if String.eqb p EmptyString || endswith_slash p then EmptyString else "/")
        +:+ "infer/guardduty_tuples.csv".
Proof.
  unfold os_path_join. cbn [foldl].
  unfold join_component at 2 4. cbn [startswith_slash Ascii.eqb Bool.eqb].
  destruct (String.eqb p EmptyString || endswith_slash p) eqn:Hp.
  - unfold join_component. cbn [startswith_slash Ascii.eqb Bool.eqb].
    rewrite !append_not_empty, !endswith_slash_app. cbn [endswith_slash Ascii.eqb Bool.eqb orb].
    rewrite !append_assoc. split; reflexivity.
  - unfold join_component. cbn [startswith_slash Ascii.eqb Bool.eqb].
    rewrite !append_assoc. rewrite !append_cons.
    change (EmptyString +:+ ?x) with x.
    rewrite !append_not_empty, !endswith_slash_app. cbn [endswith_slash Ascii.eqb Bool.eqb orb].
    split; reflexivity.
Qed.

(** ** The serializer loses nothing *)

Lemma fields_inj (r1 r2 : TupleRecord) : fields r1 = fields r2 → r1 = r2.
Proof. destruct r1, r2. unfold fields. cbn. by intros [= -> ->]. Qed.

(** X2.  Two batches that [csv_serializer] turns into the same text are the
    same batch, row for row: quoting keeps commas, quotes and line breaks
    inside fields apart from the separators. *)
Theorem csv_serialize_injective (rows1 rows2 : list TupleRecord) (text : string) :
  csv_serialize rows1 = Returns text →
  csv_serialize rows2 = Returns text →
  rows1 = rows2.
Proof.
  intros H1 H2.
  assert (∀ rows, csv_serialize rows = Returns text →
            map fields rows = csv_records text) as Hread.
  { intros rows H. destruct rows as [|r rows]; [discriminate|].
    change (csv_serialize (r :: rows))
      with (Returns (String.concat newline (map serialize_row (r :: rows)))) in H.
    assert (text = String.concat newline (map serialize_row (r :: rows))) as ->
      by congruence.
    symmetry. by apply csv_round_trip. }
  apply Hread in H1, H2. rewrite <- H2 in H1. clear H2 Hread.
  revert rows2 H1. induction rows1 as [|r1 rows1 IH]; intros [|r2 rows2] H1;
    try discriminate; [done|].
  cbn [map] in H1.
  assert (fields r1 = fields r2 ∧ map fields rows1 = map fields rows2)
    as [Hr Hrows] by (split; congruence).
  apply fields_inj in Hr as ->. f_equal. by apply IH.
Qed.

Lemma csv_serialize_injective_witness :
  [mkTuple "user-1" "10.0.0.5"; mkTuple "a,b" "10.0.0.9"]
  = [mkTuple "user-1" "10.0.0.5"; mkTuple "a,b" "10.0.0.9"].
Proof.
  apply (csv_serialize_injective
           [mkTuple "user-1" "10.0.0.5"; mkTuple "a,b" "10.0.0.9"]
           [mkTuple "user-1" "10.0.0.5"; mkTuple "a,b" "10.0.0.9"]
           (String.concat newline
              (map serialize_row
                 [mkTuple "user-1" "10.0.0.5"; mkTuple "a,b" "10.0.0.9"])));
    reflexivity.
Defined.

(** ** Single cells *)

(** X3.  Cell 14 needs the predictor of cell 11 and nothing else: it makes
    no remote call, prints nothing, keeps the endpoint name and leaves the
    predictor with the CSV and JSON codecs whatever they were before, so
    running it again changes nothing. *)
Theorem codecs_are_set_in_place (s : NB) (p : Predictor) :
  predictor (globals s) = Some p →
  cell_14 s = (Returns tt, with_predictor (codec_predictor (endpoint p)) s)
  ∧ cell_14 (snd (cell_14 s)) = cell_14 s.
Proof.
  intros Hp.
  assert (∀ s' q, predictor (globals s') = Some q →
            cell_14 s' = (Returns tt, with_predictor (codec_predictor (endpoint q)) s'))
    as Hcell.
  { intros s' q Hq. unfold cell_14, with_predictor, codec_predictor. exec.
    rewrite Hq. exec. reflexivity. }
  split; [by apply Hcell|].
  rewrite (Hcell s p Hp). cbn [snd].
  rewrite (Hcell (with_predictor (codec_predictor (endpoint p)) s)
             (codec_predictor (endpoint p)) eq_refl).
  reflexivity.
Qed.
Lemma codecs_are_set_in_place_witness :
  cell_14 serving
  = (Returns tt, with_predictor (codec_predictor (endpoint (codec_predictor "ipinsights-job-1"))) serving)
  ∧ cell_14 (snd (cell_14 serving)) = cell_14 serving.
Proof.
  apply (codecs_are_set_in_place serving (codec_predictor "ipinsights-job-1")).
  reflexivity.
Defined.


(** X5.  With the codecs of cell 14 and a batch that has rows, [predict]
    sends exactly one request and its outcome is the outcome of that
    request: an error of the endpoint is raised as it is, a body that is not
    JSON raises a ValueError, and only a JSON document is returned; in the
    two failing cases nothing of the batch is returned. *)
Theorem one_request_decides_the_batch (W : World) (s : NB) (p : Predictor)
    (rows : list TupleRecord) :
  predictor (globals s) = Some p →
  serializer p = Some csv_serializer →
  deserializer p = Some json_deserializer →
  rows ≠ [] →
  match invoke_endpoint W (csv_request p rows) with
  | Raises e =>
      predict W rows s = (Raises e, sent (csv_request p rows) s)
  | Returns (OtherText _) =>
      predict W rows s
      = (Raises (ValueError "JSONDecodeError"), sent (csv_request p rows) s)
  | Returns (JsonText doc) =>
      predict W rows s
      = (Returns (Deserialized doc), sent (csv_request p rows) s)
  end.
Proof.
  intros Hp Hser Hdes Hrows. unfold predict, sent, csv_request. exec.
  rewrite Hp. exec. rewrite Hser. exec.
  destruct rows as [|r rows]; [done|]. cbn [csv_serialize]. exec.
  destruct (invoke_endpoint W _) as [[doc|t]|e]; [| |reflexivity];
    rewrite Hdes; reflexivity.
Qed.
Lemma one_request_decides_the_batch_witness :
  match invoke_endpoint headed_world
          (csv_request (codec_predictor "ipinsights-job-1")
             [mkTuple "user-1" "203.0.113.44"]) with
  | Raises e =>
      predict headed_world [mkTuple "user-1" "203.0.113.44"] serving
      = (Raises e,
         sent (csv_request (codec_predictor "ipinsights-job-1")
                 [mkTuple "user-1" "203.0.113.44"]) serving)
  | Returns (OtherText _) =>
      predict headed_world [mkTuple "user-1" "203.0.113.44"] serving
      = (Raises (ValueError "JSONDecodeError"),
         sent (csv_request (codec_predictor "ipinsights-job-1")
                 [mkTuple "user-1" "203.0.113.44"]) serving)
  | Returns (JsonText doc) =>
      predict headed_world [mkTuple "user-1" "203.0.113.44"] serving
      = (Returns (Deserialized doc),
         sent (csv_request (codec_predictor "ipinsights-job-1")
                 [mkTuple "user-1" "203.0.113.44"]) serving)
  end.
Proof.
  apply (one_request_decides_the_batch headed_world serving
           (codec_predictor "ipinsights-job-1") [mkTuple "user-1" "203.0.113.44"]);
    [reflexivity | reflexivity | reflexivity | discriminate].
Defined.

(** ** The configuration is read-only *)

Lemma preserves_mret {A B} (f : Globals → B) (a : A) : preserves f (mret a).
Proof. intros s. reflexivity. Qed.

Lemma preserves_raise {A B} (f : Globals → B) (e : Exn) : preserves f (raise (A:=A) e).
Proof. intros s. reflexivity. Qed.

Lemma preserves_lift {A B} (f : Globals → B) (r : result A) : preserves f (lift r).
Proof. intros s. reflexivity. Qed.

Lemma preserves_print {B} (f : Globals → B) (line : string) : preserves f (print line).
Proof. intros s. reflexivity. Qed.

Lemma preserves_output_lines {B} (f : Globals → B) (lines : list string) :
  preserves f (output_lines lines).
Proof. intros s. reflexivity. Qed.

Lemma preserves_display {B} (f : Globals → B) (v : Prediction) : preserves f (display v).
Proof. intros s. reflexivity. Qed.

Lemma preserves_call {A B} (f : Globals → B) (ev : Event) (answer : result A) :
  preserves f (call ev answer).
Proof. intros s. reflexivity. Qed.

Lemma preserves_read {A B} (f : Globals → B) (name : string) (var : Globals → option A) :
  preserves f (read name var).
Proof. intros s. unfold read. by destruct (var (globals s)). Qed.

Lemma preserves_assign {B} (f : Globals → B) (upd : Globals → Globals) :
  (∀ g, f (upd g) = f g) → preserves f (assign upd).
Proof. intros H s. apply H. Qed.

Lemma preserves_mbind {A B C} (f : Globals → C) (m : M A) (k : A → M B) :
  preserves f m → (∀ a, preserves f (k a)) → preserves f (m ≫= k).
Proof.
  intros Hm Hk s. specialize (Hm s). monad_unfold.
  destruct (m s) as [[a|e] s']; cbn [snd] in *; [|exact Hm].
  rewrite <- Hm. apply Hk.
Qed.

Lemma preserves_try {A B C} (f : Globals → C) (body : M A) (handler : Exn → M B)
    (orelse : A → M B) :
  preserves f body → (∀ e, preserves f (handler e)) →
  (∀ a, preserves f (orelse a)) →
  preserves f (try_except_else body handler orelse).
Proof.
  intros Hb Hh Ho s. specialize (Hb s). unfold try_except_else.
  destruct (body s) as [[a|e] s']; cbn [snd] in *; rewrite <- Hb;
    [apply Ho | apply Hh].
Qed.

Ltac frame :=
  repeat first
    [ apply preserves_mbind; [|intros ?]
    | apply preserves_try; [|intros ?|intros ?]
    | apply preserves_mret | apply preserves_raise | apply preserves_lift
    | apply preserves_print | apply preserves_output_lines | apply preserves_display
    | apply preserves_read | apply preserves_call
    | apply preserves_assign; intros ?; reflexivity
    | match goal with
      | |- preserves _ (match ?x with _ => _ end) => destruct x
      end ].

Lemma run_cells_preserves {B} (f : Globals → B) (cells : list (nat * M unit)) :
  Forall (fun c => preserves f (snd c)) cells →
  ∀ s, f (globals (snd (run_cells cells s))) = f (globals s).
Proof.
  induction 1 as [|[i c] rest Hc _ IH]; intros s; [reflexivity|].
  rewrite run_cells_step. specialize (Hc s). cbn [snd] in Hc.
  destruct (c s) as [[[]|e] s']; cbn [snd] in *; [|exact Hc].
  by rewrite IH.
Qed.

(** X6.  After cell 3 no cell assigns [bucket] or [prefix]: every later
    cell, run in any state, leaves both as they were, and at the end of
    every run they hold what the operator configured. *)
Theorem configuration_is_never_rebound (W : World) (cfg : Config) :
  Forall (fun c => preserves bucket (snd c) ∧ preserves prefix (snd c))
    (drop 2 (code_cells W cfg))
  ∧ bucket (globals (snd (run_all W cfg))) = Some (cfg_bucket cfg)
  ∧ prefix (globals (snd (run_all W cfg))) = Some (cfg_prefix cfg).
Proof.
  assert (Forall (fun c => preserves bucket (snd c) ∧ preserves prefix (snd c))
            (drop 2 (code_cells W cfg))) as Hcells.
  { unfold code_cells. cbn [drop].
    repeat (apply Forall_cons; split); [..|constructor]; cbn [snd].
    all: unfold cell_5, cell_7, cell_8, cell_9, cell_11, cell_12, cell_14,
           cell_16, cell_18, fit, deploy, predict, read_csv.
    all: split; frame. }
  split; [exact Hcells|].
  unfold run_all.
  rewrite <- (take_drop 2 (code_cells W cfg)), run_cells_app.
  replace (run_cells (take 2 (code_cells W cfg)) fresh)
    with (Finished, configured cfg) by reflexivity.
  split.
  - rewrite (run_cells_preserves bucket); [reflexivity|].
    eapply Forall_impl; [exact Hcells|]. by intros c [? ?].
  - rewrite (run_cells_preserves prefix); [reflexivity|].
    eapply Forall_impl; [exact Hcells|]. by intros c [? ?].
Qed.

(** ** Every run *)

Ltac split_events :=
  repeat (apply Forall_cons; split); [..|constructor].

(** X7.  The remote calls of a run are always an initial part of one fixed
    sequence: role lookup, bucket probe, training submission, wait, endpoint
    creation, then twice an object read followed by an invocation; a run
    that finishes makes all nine.  So no run submits two training jobs,
    creates two endpoints or sends more than two inference requests. *)
Theorem remote_calls_in_fixed_order (W : World) (cfg : Config) :
  map kind (trace (snd (run_all W cfg))) `prefix_of` full_run
  ∧ (fst (run_all W cfg) = Finished →
     map kind (trace (snd (run_all W cfg))) = full_run).
Proof.
  split.
  - every_run. all: cbn [map kind]; unfold full_run; eexists; reflexivity.
  - every_run. all: first [discriminate | reflexivity].
Qed.

(** X8.  Every training request of every run is built from what the
    earlier cells bound: the role is the one the role lookup returned, the
    image is the IP Insights image of the session's region, there is one
    ml.m4.xlarge instance, the output path is s3://bucket/prefix/output and
    the only channel is train, fully replicated CSV at the training key of
    the bucket. *)
Theorem training_request_contents (W : World) (cfg : Config) :
  Forall
    (fun ev =>
       match ev with
       | EvCreateTrainingJob req =>
           get_execution_role W = Returns (req_role req)
           ∧ req_image req = get_image_uri W (region_name W) "ipinsights"
           ∧ req_instance_count req = 1
           ∧ req_instance_type req = "ml.m4.xlarge"
           ∧ req_output_path req
             = "s3://" +:+ cfg_bucket cfg +:+ "/" +:+ cfg_prefix cfg +:+ "/output"
           ∧ req_input_config req
             = [("train",
                 mk_s3_input
                   (s3_uri (cfg_bucket cfg)
                      (os_path_join (cfg_prefix cfg) ["train"; "cloudtrail_tuples.csv"]))
                   "FullyReplicated" "text/csv")]
       | _ => True
       end)
    (trace (snd (run_all W cfg))).
Proof.
  every_run. all: split_events; try exact I.
  all: cbn [req_role req_image req_instance_count req_instance_type
            req_output_path req_input_config];
    repeat apply conj; first [assumption | reflexivity].
Qed.

(** X9.  The only object a run hands to training is the training key of the
    bucket, and the objects it reads for inference are, in this order, that
    same object (the sanity check of cell 16) and then the findings key
    (cell 18). *)
Theorem inference_reads_the_training_object (W : World) (cfg : Config) :
  training_uris (trace (snd (run_all W cfg)))
    `prefix_of`
    [s3_uri (cfg_bucket cfg)
       (os_path_join (cfg_prefix cfg) ["train"; "cloudtrail_tuples.csv"])]
  ∧ uris_read (trace (snd (run_all W cfg)))
      `prefix_of`
      [s3_uri (cfg_bucket cfg)
         (os_path_join (cfg_prefix cfg) ["train"; "cloudtrail_tuples.csv"]);
       s3_uri (cfg_bucket cfg)
         (os_path_join (cfg_prefix cfg) ["infer"; "guardduty_tuples.csv"])].
Proof.
  split.
  - every_run. all: eexists; reflexivity.
  - every_run. all: eexists; reflexivity.
Qed.

(** X10.  Every endpoint a run requests is for the job this run submitted
    and waited for, which is also the job the estimator names at the end,
    on one ml.m4.xlarge instance. *)
Theorem endpoint_is_for_the_trained_job (W : World) (cfg : Config) :
  Forall
    (fun ev =>
       match ev with
       | EvCreateEndpoint d =>
           dep_initial_instance_count d = 1
           ∧ dep_instance_type d = "ml.m4.xlarge"
           ∧ In (EvWaitTrainingJob (dep_training_job d))
               (trace (snd (run_all W cfg)))
           ∧ (ip_insights (globals (snd (run_all W cfg))) ≫= latest_training_job)
             = Some (dep_training_job d)
           ∧ ∃ req, In (EvCreateTrainingJob req) (trace (snd (run_all W cfg)))
                    ∧ create_training_job W req = Returns (dep_training_job d)
       | _ => True
       end)
    (trace (snd (run_all W cfg))).
Proof.
  every_run. all: split_events; try exact I.
  all: cbn [dep_initial_instance_count dep_instance_type dep_training_job].
  all: split; [reflexivity|split; [reflexivity|]].
  all: split; [cbn [In]; auto 12|split; [reflexivity|]].
  all: eexists; split; [cbn [In]; right; right; left; reflexivity|assumption].
Qed.

(** X11.  What a run that finishes has written to the cell output, in
    order: the greeting, one status line of the bucket check (the stored-in
    line or one of the three failure reports), whatever [fit] wrote while it
    waited for the job, the name of the training job the estimator holds,
    whatever [deploy] wrote while it waited for the endpoint of that job,
    and the name of the endpoint the predictor holds; the predictor has the
    codecs of cell 14 and two results were shown. *)
Theorem finished_run_output (W : World) (cfg : Config) :
  fst (run_all W cfg) = Finished →
  ∃ (status job name : string),
    stdout (snd (run_all W cfg))
    = ["Welcome to IP Insights!"; status]
      ++ training_log W job
      ++ ["Training job name: " +:+ job]
      ++ deploy_progress W (mkDeployRequest job 1 "ml.m4.xlarge")
      ++ ["Endpoint name: " +:+ name]
    ∧ (status = msg_stored_in (cfg_bucket cfg) (cfg_prefix cfg)
       ∨ ∃ report, status = report_line report (cfg_bucket cfg))
    ∧ (ip_insights (globals (snd (run_all W cfg))) ≫= latest_training_job)
      = Some job
    ∧ predictor (globals (snd (run_all W cfg))) = Some (codec_predictor name)
    ∧ List.length (displayed (snd (run_all W cfg))) = 2%nat.
Proof.
  every_run. all: intros Hfin; try discriminate.
  all: eexists _, _, _; split; [cbn [app]; rewrite <- ?app_assoc; reflexivity|].
  all: split; [|split; [reflexivity|split; reflexivity]].
  all: first [ left; reflexivity
             | right; exists InvalidConfiguration; reflexivity
             | right; exists AccessDenied; reflexivity
             | right; exists NotFound; reflexivity ].
Qed.

Lemma finished_run_output_witness :
  ∃ (status job name : string),
    stdout (snd (run_all headed_world scenario_config))
    = ["Welcome to IP Insights!"; status]
      ++ training_log headed_world job
      ++ ["Training job name: " +:+ job]
      ++ deploy_progress headed_world (mkDeployRequest job 1 "ml.m4.xlarge")
      ++ ["Endpoint name: " +:+ name]
    ∧ (status = msg_stored_in (cfg_bucket scenario_config) (cfg_prefix scenario_config)
       ∨ ∃ report, status = report_line report (cfg_bucket scenario_config))
    ∧ (ip_insights (globals (snd (run_all headed_world scenario_config)))
       ≫= latest_training_job) = Some job
    ∧ predictor (globals (snd (run_all headed_world scenario_config)))
      = Some (codec_predictor name)
    ∧ List.length (displayed (snd (run_all headed_world scenario_config))) = 2%nat.
Proof.
  apply (finished_run_output headed_world scenario_config).
  vm_compute. reflexivity.
Defined.
